(** * shoti-srv: the URL store, the random pick and the video-info reshaping

    A shallow embedding of the Go handlers of the service
    ([addURL], [getURLs], [clearURLs], [getRandomURL], [getVideoInfo],
    [getVideoData]) together with the parts of the Go runtime they lean on:
    [encoding/json] (decoder and encoder), [net/http] (request, response
    writer, [http.Error]), [database/sql] over the single table [urls], and
    [math/rand].  Everything the process cannot decide by itself (database
    faults, generated identifiers, random draws, the remote API) is read
    from an explicit environment carried by the state. *)

From Stdlib Require Import ZArith NArith String Ascii List Bool Lia.
From Stdlib Require Import DecimalString DecimalPos DecimalZ.
Import ListNotations.
Local Open Scope string_scope.
Local Open Scope Z_scope.
#[local] Set Warnings "-register-all".

(** ** Go values *)

Module Go.

(** A Go [error]: [None] is [nil], [Some m] an error whose [Error()] is [m]. *)
Definition error := option string.

(** [int] is 64 bits wide on the platforms the service is built for. *)
Definition int_min : Z := - 2 ^ 63.
Definition int_max : Z := 2 ^ 63 - 1.
Definition in_int (z : Z) : bool := (int_min <=? z) && (z <=? int_max).
Definition wrap (z : Z) : Z := (z + 2 ^ 63) mod 2 ^ 64 - 2 ^ 63.
Definition add (a b : Z) : Z := wrap (a + b).
Definition sub (a b : Z) : Z := wrap (a - b).

(** The verb [%d] of [fmt]: the decimal rendering of an integer. *)
Definition itoa (z : Z) : string := NilZero.string_of_int (Z.to_int z).

(** A slice is [nil] or a (possibly empty) sequence; [append] on [nil]
    allocates. *)
Definition Slice (A : Type) := option (list A).
Definition append {A} (s : Slice A) (x : A) : Slice A :=
  match s with
  | None => Some [x]
  | Some l => Some (l ++ [x])%list
  end.
Definition elems {A} (s : Slice A) : list A :=
  match s with None => [] | Some l => l end.

Definition code (c : ascii) : N := N_of_ascii c.
Definition byte (n : N) : ascii := ascii_of_N n.

Definition is_digit (c : ascii) : bool := ((48 <=? code c) && (code c <=? 57))%N.
Definition to_upper (c : ascii) : ascii :=
  if ((97 <=? code c) && (code c <=? 122))%N then byte (code c - 32) else c.

Fixpoint digits_value (acc : Z) (s : string) : option Z :=
  match s with
  | EmptyString => Some acc
  | String c r =>
    if is_digit c then digits_value (10 * acc + Z.of_N (code c - 48)) r else None
  end.

(** The value of a decimal numeral read from its most significant digit,
    after the digits already read have given [acc]. *)
Fixpoint uint_value (acc : Z) (d : Decimal.uint) : Z :=
  match d with
  | Decimal.Nil => acc
  | Decimal.D0 l => uint_value (10 * acc + 0) l
  | Decimal.D1 l => uint_value (10 * acc + 1) l
  | Decimal.D2 l => uint_value (10 * acc + 2) l
  | Decimal.D3 l => uint_value (10 * acc + 3) l
  | Decimal.D4 l => uint_value (10 * acc + 4) l
  | Decimal.D5 l => uint_value (10 * acc + 5) l
  | Decimal.D6 l => uint_value (10 * acc + 6) l
  | Decimal.D7 l => uint_value (10 * acc + 7) l
  | Decimal.D8 l => uint_value (10 * acc + 8) l
  | Decimal.D9 l => uint_value (10 * acc + 9) l
  end.

(** [strconv.ParseInt(s, 10, 64)]: an optional sign, then one decimal
    digit or more, the value within 64 bits. *)
Definition ParseInt (s : string) : option Z :=
  let unsigned (d : string) : option Z :=
    match d with
    | EmptyString => None
    | _ => digits_value 0 d
    end in
  let n :=
    match s with
    | String c r =>
      if Ascii.eqb c "-" then option_map Z.opp (unsigned r)
      else if Ascii.eqb c "+" then unsigned r
      else unsigned s
    | EmptyString => None
    end in
  match n with
  | Some z => if in_int z then Some z else None
  | None => None
  end.

(** [strings.Contains(s, string(c))]. *)
Fixpoint has_byte (c : ascii) (s : string) : bool :=
  match s with
  | EmptyString => false
  | String d r => Ascii.eqb c d || has_byte c r
  end.

End Go.

(** ** unicode/utf8 and unicode/utf16, as far as the decoder uses them *)

Module Utf8.
Import Go.

(** U+FFFD, [EF BF BD]. *)
Definition replacement : string :=
  String (byte 239) (String (byte 191) (String (byte 189) EmptyString)).

Definition between (lo hi : N) (c : ascii) : bool :=
  ((lo <=? code c) && (code c <=? hi))%N.

(** Accepted range of the second byte, by first byte (the table [first]
    and [acceptRanges] of [unicode/utf8]). *)
Definition second_range (b0 : N) : N * N :=
  (if b0 =? 224 then (160, 191)
   else if b0 =? 237 then (128, 159)
   else if b0 =? 240 then (144, 191)
   else if b0 =? 244 then (128, 143)
   else (128, 191))%N.

(** Width of the well-formed multi-byte sequence at the head of [s], if
    there is one ([utf8.DecodeRune] returns width 1 and [RuneError]
    otherwise).  Only called on a first byte [>= 0x80]. *)
Definition rune_width (s : string) : option nat :=
  match s with
  | EmptyString => None
  | String c0 r0 =>
    let b0 := code c0 in
    let '(lo, hi) := second_range b0 in
    if (b0 <? 194)%N then None
    else if (b0 <? 224)%N then
      match r0 with
      | String c1 _ => if between lo hi c1 then Some 2%nat else None
      | _ => None
      end
    else if (b0 <? 240)%N then
      match r0 with
      | String c1 (String c2 _) =>
        if between lo hi c1 && between 128 191 c2 then Some 3%nat else None
      | _ => None
      end
    else if (b0 <? 245)%N then
      match r0 with
      | String c1 (String c2 (String c3 _)) =>
        if between lo hi c1 && between 128 191 c2 && between 128 191 c3
        then Some 4%nat else None
      | _ => None
      end
    else None
  end.

(** [utf8.EncodeRune]. *)
Definition encode_rune (r : N) : string :=
  (if r <=? 127 then String (byte r) EmptyString
   else if r <=? 2047 then
     String (byte (192 + r / 64)) (String (byte (128 + r mod 64)) EmptyString)
   else if ((55296 <=? r) && (r <=? 57343)) || (1114111 <? r) then replacement
   else if r <=? 65535 then
     String (byte (224 + r / 4096))
       (String (byte (128 + (r / 64) mod 64))
          (String (byte (128 + r mod 64)) EmptyString))
   else
     String (byte (240 + r / 262144))
       (String (byte (128 + (r / 4096) mod 64))
          (String (byte (128 + (r / 64) mod 64))
             (String (byte (128 + r mod 64)) EmptyString))))%N.

(** [utf16.IsSurrogate] and [utf16.DecodeRune] ([None] is U+FFFD). *)
Definition is_surrogate (r : N) : bool := ((55296 <=? r) && (r <? 57344))%N.
Definition decode_pair (r1 r2 : N) : option N :=
  (if (55296 <=? r1) && (r1 <? 56320) && (56320 <=? r2) && (r2 <? 57344)
   then Some ((r1 - 55296) * 1024 + (r2 - 56320) + 65536)
   else None)%N.

End Utf8.

(** ** encoding/json: documents, the scanner and the string decoder *)

Module Json.
Import Go.

Inductive JSON : Type :=
| JNull
| JBool (b : bool)
| JNum (lit : string)
| JStr (s : string)
| JArr (elems : list JSON)
| JObj (members : list (string * JSON)).

(** What reading one value off a stream can fail with, short of plain
    [io.EOF] (which [Decode] raises before the scanner starts):
    a [*SyntaxError] or [io.ErrUnexpectedEOF]. *)
Inductive ScanError : Type :=
| InvalidCharacter (c : ascii) (context : string)
| UnexpectedEOF.

Inductive Scan (A : Type) : Type :=
| Scanned (a : A) (rest : string)
| Failed (e : ScanError)
| Starved.
Arguments Scanned {A} a rest.
Arguments Failed {A} e.
Arguments Starved {A}.

Definition scan_bind {A B} (x : Scan A) (k : A -> string -> Scan B) : Scan B :=
  match x with
  | Scanned a rest => k a rest
  | Failed e => Failed e
  | Starved => Starved
  end.

Definition scan_map {A B} (f : A -> B) (x : Scan A) : Scan B :=
  scan_bind x (fun a rest => Scanned (f a) rest).

Definition maxNestingDepth : N := 10000.

Definition quote : ascii := "034".
Definition backslash : ascii := "\".

(** [isSpace] of the scanner. *)
Definition is_space (c : ascii) : bool :=
  match code c with
  | 32 | 9 | 13 | 10 => true
  | _ => false
  end%N.

Fixpoint skip_space (s : string) : string :=
  match s with
  | String c r => if is_space c then skip_space r else s
  | EmptyString => s
  end.

(** [nonSpace] of the stream decoder. *)
Fixpoint nonSpace (s : string) : bool :=
  match s with
  | String c r => negb (is_space c) || nonSpace r
  | EmptyString => false
  end.

(** *** Literals [true], [false], [null] *)

Fixpoint scan_literal (name expect : string) (s : string) : Scan unit :=
  match expect with
  | EmptyString => Scanned tt s
  | String e expect' =>
    match s with
    | EmptyString => Failed UnexpectedEOF
    | String c r =>
      if Ascii.eqb c e then scan_literal name expect' r
      else Failed (InvalidCharacter c
                     ("in literal " ++ name ++ " (expecting '" ++ String e "')"))
    end
  end.

(** *** Numbers: the states [stateNeg], [state1], [state0], [stateDot],
    [stateDot0], [stateE], [stateESign], [stateE0] of the scanner *)

Inductive NumState := SNeg | S1 | S0 | SDot | SDot0 | SE | SESign | SE0.

Definition is_e (c : ascii) : bool := Ascii.eqb c "e" || Ascii.eqb c "E".

(** One byte in a numeric state: [inl st'] goes on, [inr None] ends the
    number before [c], [inr (Some ctx)] is a syntax error. *)
Definition num_step (st : NumState) (c : ascii) : NumState + option string :=
  match st with
  | SNeg =>
    if Ascii.eqb c "0" then inl S0
    else if is_digit c then inl S1
    else inr (Some "in numeric literal")
  | S1 =>
    if is_digit c then inl S1
    else if Ascii.eqb c "." then inl SDot
    else if is_e c then inl SE
    else inr None
  | S0 =>
    if Ascii.eqb c "." then inl SDot
    else if is_e c then inl SE
    else inr None
  | SDot =>
    if is_digit c then inl SDot0
    else inr (Some "after decimal point in numeric literal")
  | SDot0 =>
    if is_digit c then inl SDot0
    else if is_e c then inl SE
    else inr None
  | SE =>
    if Ascii.eqb c "+" || Ascii.eqb c "-" then inl SESign
    else if is_digit c then inl SE0
    else inr (Some "in exponent of numeric literal")
  | SESign =>
    if is_digit c then inl SE0
    else inr (Some "in exponent of numeric literal")
  | SE0 =>
    if is_digit c then inl SE0 else inr None
  end.

Definition num_final (st : NumState) : bool :=
  match st with
  | S1 | S0 | SDot0 | SE0 => true
  | _ => false
  end.

Fixpoint scan_number (st : NumState) (s : string) : Scan string :=
  match s with
  | EmptyString =>
    if num_final st then Scanned EmptyString EmptyString else Failed UnexpectedEOF
  | String c r =>
    match num_step st c with
    | inl st' => scan_map (String c) (scan_number st' r)
    | inr None => Scanned EmptyString s
    | inr (Some ctx) => Failed (InvalidCharacter c ctx)
    end
  end.

(** *** Strings: scanning and [unquote] in one pass *)

Definition hex_val (c : ascii) : option N :=
  (let n := code c in
   if (48 <=? n) && (n <=? 57) then Some (n - 48)
   else if (97 <=? n) && (n <=? 102) then Some (n - 87)
   else if (65 <=? n) && (n <=? 70) then Some (n - 55)
   else None)%N.

(** Four hexadecimal digits at the head of [s]. *)
Definition scan_hex4 (s : string) : Scan N :=
  match s with
  | String a (String b (String c (String d rest))) =>
    match hex_val a, hex_val b, hex_val c, hex_val d with
    | Some x, Some y, Some z, Some w =>
      Scanned (((x * 16 + y) * 16 + z) * 16 + w)%N rest
    | None, _, _, _ => Failed (InvalidCharacter a "in \u hexadecimal character escape")
    | _, None, _, _ => Failed (InvalidCharacter b "in \u hexadecimal character escape")
    | _, _, None, _ => Failed (InvalidCharacter c "in \u hexadecimal character escape")
    | _, _, _, None => Failed (InvalidCharacter d "in \u hexadecimal character escape")
    end
  | String a (String b (String c EmptyString)) =>
    match hex_val a, hex_val b, hex_val c with
    | Some _, Some _, Some _ => Failed UnexpectedEOF
    | None, _, _ => Failed (InvalidCharacter a "in \u hexadecimal character escape")
    | _, None, _ => Failed (InvalidCharacter b "in \u hexadecimal character escape")
    | _, _, None => Failed (InvalidCharacter c "in \u hexadecimal character escape")
    end
  | String a (String b EmptyString) =>
    match hex_val a, hex_val b with
    | Some _, Some _ => Failed UnexpectedEOF
    | None, _ => Failed (InvalidCharacter a "in \u hexadecimal character escape")
    | _, None => Failed (InvalidCharacter b "in \u hexadecimal character escape")
    end
  | String a EmptyString =>
    match hex_val a with
    | Some _ => Failed UnexpectedEOF
    | None => Failed (InvalidCharacter a "in \u hexadecimal character escape")
    end
  | EmptyString => Failed UnexpectedEOF
  end.

(** [getu4]: the escape [\uXXXX] at the head of [s], if that is what is
    there. *)
Definition getu4 (s : string) : option (N * string) :=
  match s with
  | String c0 (String c1 r) =>
    if Ascii.eqb c0 backslash && Ascii.eqb c1 "u" then
      match scan_hex4 r with
      | Scanned n rest => Some (n, rest)
      | _ => None
      end
    else None
  | _ => None
  end.

Definition simple_escape (c : ascii) : option ascii :=
  match code c with
  | 34 => Some quote
  | 92 => Some backslash
  | 47 => Some "/"%char
  | 98 => Some (byte 8)
  | 102 => Some (byte 12)
  | 110 => Some (byte 10)
  | 114 => Some (byte 13)
  | 116 => Some (byte 9)
  | _ => None
  end%N.

Fixpoint drop (n : nat) (s : string) : string :=
  match n, s with
  | S n', String _ r => drop n' r
  | _, _ => s
  end.

Fixpoint take (n : nat) (s : string) : string :=
  match n, s with
  | S n', String c r => String c (take n' r)
  | _, _ => EmptyString
  end.

(** The bytes after an opening quote, up to and including the closing
    one; the result is the decoded string ([unquote]: escapes resolved,
    surrogate pairs joined, ill-formed UTF-8 coerced to U+FFFD). *)
Fixpoint scan_string (fuel : nat) (s : string) : Scan string :=
  match fuel with
  | O => Starved
  | S fuel =>
    match s with
    | EmptyString => Failed UnexpectedEOF
    | String c r =>
      if Ascii.eqb c quote then Scanned EmptyString r
      else if Ascii.eqb c backslash then
        match r with
        | EmptyString => Failed UnexpectedEOF
        | String e r1 =>
          match simple_escape e with
          | Some x => scan_map (String x) (scan_string fuel r1)
          | None =>
            if Ascii.eqb e "u" then
              scan_bind (scan_hex4 r1) (fun rr r2 =>
                if Utf8.is_surrogate rr then
                  match getu4 r2 with
                  | Some (rr1, r3) =>
                    match Utf8.decode_pair rr rr1 with
                    | Some dec =>
                      scan_map (String.append (Utf8.encode_rune dec)) (scan_string fuel r3)
                    | None =>
                      scan_map (String.append Utf8.replacement) (scan_string fuel r2)
                    end
                  | None => scan_map (String.append Utf8.replacement) (scan_string fuel r2)
                  end
                else scan_map (String.append (Utf8.encode_rune rr)) (scan_string fuel r2))
            else Failed (InvalidCharacter e "in string escape code")
          end
        end
      else if (code c <? 32)%N then Failed (InvalidCharacter c "in string literal")
      else if (code c <? 128)%N then scan_map (String c) (scan_string fuel r)
      else
        match Utf8.rune_width s with
        | Some n => scan_map (String.append (take n s)) (scan_string fuel (drop n s))
        | None => scan_map (String.append Utf8.replacement) (scan_string fuel r)
        end
    end
  end.

(** *** Values *)

(** One [key : value] member, the value scanner being given. *)
Definition scan_member (value : string -> Scan JSON) (fuel : nat) (s : string)
  : Scan (string * JSON) :=
  match skip_space s with
  | EmptyString => Failed UnexpectedEOF
  | String c r =>
    if Ascii.eqb c quote then
      scan_bind (scan_string fuel r) (fun key r1 =>
        match skip_space r1 with
        | EmptyString => Failed UnexpectedEOF
        | String c1 r2 =>
          if Ascii.eqb c1 ":" then scan_map (pair key) (value r2)
          else Failed (InvalidCharacter c1 "after object key")
        end)
    else Failed (InvalidCharacter c "looking for beginning of object key string")
  end.

(** The next value of [s], after leading white space, and what follows
    it.  [depth] counts the enclosing arrays and objects. *)
Fixpoint scan_value (fuel : nat) (depth : N) (s : string) {struct fuel} : Scan JSON :=
  match fuel with
  | O => Starved
  | S fuel =>
    match skip_space s with
    | EmptyString => Failed UnexpectedEOF
    | String c r =>
      if Ascii.eqb c "{" then
        if (maxNestingDepth <? depth + 1)%N
        then Failed (InvalidCharacter c "exceeded max depth")
        else
          match skip_space r with
          | EmptyString => Failed UnexpectedEOF
          | String c1 r1 =>
            if Ascii.eqb c1 "}" then Scanned (JObj []) r1
            else
              scan_bind (scan_member (scan_value fuel (depth + 1)) fuel r) (fun m r2 =>
              scan_map (fun ms => JObj (m :: ms)) (scan_members fuel (depth + 1) r2))
          end
      else if Ascii.eqb c "[" then
        if (maxNestingDepth <? depth + 1)%N
        then Failed (InvalidCharacter c "exceeded max depth")
        else
          match skip_space r with
          | EmptyString => Failed UnexpectedEOF
          | String c1 r1 =>
            if Ascii.eqb c1 "]" then Scanned (JArr []) r1
            else
              scan_bind (scan_value fuel (depth + 1) r) (fun v r2 =>
              scan_map (fun vs => JArr (v :: vs)) (scan_elems fuel (depth + 1) r2))
          end
      else if Ascii.eqb c quote then scan_map JStr (scan_string fuel r)
      else if Ascii.eqb c "-" then
        scan_map (fun l => JNum (String c l)) (scan_number SNeg r)
      else if Ascii.eqb c "0" then
        scan_map (fun l => JNum (String c l)) (scan_number S0 r)
      else if is_digit c then
        scan_map (fun l => JNum (String c l)) (scan_number S1 r)
      else if Ascii.eqb c "t" then
        scan_map (fun _ => JBool true) (scan_literal "true" "rue" r)
      else if Ascii.eqb c "f" then
        scan_map (fun _ => JBool false) (scan_literal "false" "alse" r)
      else if Ascii.eqb c "n" then
        scan_map (fun _ => JNull) (scan_literal "null" "ull" r)
      else Failed (InvalidCharacter c "looking for beginning of value")
    end
  end

(** After a member: [,] and one more member, or the closing brace. *)
with scan_members (fuel : nat) (depth : N) (s : string) {struct fuel}
  : Scan (list (string * JSON)) :=
  match fuel with
  | O => Starved
  | S fuel =>
    match skip_space s with
    | EmptyString => Failed UnexpectedEOF
    | String c r =>
      if Ascii.eqb c "}" then Scanned [] r
      else if Ascii.eqb c "," then
        scan_bind (scan_member (scan_value fuel depth) fuel r) (fun m r1 =>
        scan_map (cons m) (scan_members fuel depth r1))
      else Failed (InvalidCharacter c "after object key:value pair")
    end
  end

(** After an element: [,] and one more element, or the closing bracket. *)
with scan_elems (fuel : nat) (depth : N) (s : string) {struct fuel}
  : Scan (list JSON) :=
  match fuel with
  | O => Starved
  | S fuel =>
    match skip_space s with
    | EmptyString => Failed UnexpectedEOF
    | String c r =>
      if Ascii.eqb c "]" then Scanned [] r
      else if Ascii.eqb c "," then
        scan_bind (scan_value fuel depth r) (fun v r1 =>
        scan_map (cons v) (scan_elems fuel depth r1))
      else Failed (InvalidCharacter c "after array element")
    end
  end.

(** A scan that has not run out of fuel and, if it went through, left
    fewer than [n] bytes unread. *)
Definition shrinks {A} (n : nat) (x : Scan A) : Prop :=
  match x with
  | Scanned _ rest => (String.length rest < n)%nat
  | Failed _ => True
  | Starved => False
  end.

(** *** Errors of [Decode] *)

Inductive DecodeError : Type :=
| EOF
| Scanning (e : ScanError)
| UnmarshalTypeError (Value Struct Field Type_ : string).

Definition hex_digit (n : N) : ascii :=
  (if n <? 10 then byte (48 + n) else byte (87 + n))%N.
Definition hex2 (n : N) : string :=
  String (hex_digit (n / 16)) (String (hex_digit (n mod 16)) EmptyString).

(** [quoteChar]: the offending byte, the way a syntax error prints it. *)
Definition quoteChar (c : ascii) : string :=
  let n := code c in
  let body :=
    (if n =? 39 then String backslash "'"
     else if n =? 34 then String quote EmptyString
     else if n =? 92 then String backslash (String backslash EmptyString)
     else if n =? 7 then String backslash "a"
     else if n =? 8 then String backslash "b"
     else if n =? 12 then String backslash "f"
     else if n =? 10 then String backslash "n"
     else if n =? 13 then String backslash "r"
     else if n =? 9 then String backslash "t"
     else if n =? 11 then String backslash "v"
     else if (n <? 32) || (n =? 127) then String backslash ("x" ++ hex2 n)
     else if n <? 128 then String c EmptyString
     else if (n <=? 160) || (n =? 173) then String backslash ("u00" ++ hex2 n)
     else Utf8.encode_rune n)%N in
  "'" ++ body ++ "'".

Definition ScanError_Error (e : ScanError) : string :=
  match e with
  | InvalidCharacter c context => "invalid character " ++ quoteChar c ++ " " ++ context
  | UnexpectedEOF => "unexpected EOF"
  end.

(** The method [Error()] of the errors [Decode] returns. *)
Definition Error (e : DecodeError) : string :=
  match e with
  | EOF => "EOF"
  | Scanning e => ScanError_Error e
  | UnmarshalTypeError v s f t =>
    if (String.eqb s "" && String.eqb f "")%bool
    then "json: cannot unmarshal " ++ v ++ " into Go value of type " ++ t
    else "json: cannot unmarshal " ++ v ++ " into Go struct field "
           ++ s ++ "." ++ f ++ " of type " ++ t
  end.

(** [Decoder.readValue] on a stream holding [body], for the first call of
    [Decode]: the first value and the unread remainder.  A body with
    nothing but white space is [io.EOF]. *)
Definition readValue (body : string) : DecodeError + (JSON * string) :=
  if nonSpace body then
    match scan_value (S (String.length body)) 0 body with
    | Scanned v rest => inr (v, rest)
    | Failed e => inl (Scanning e)
    | Starved => inl (Scanning UnexpectedEOF)
    end
  else inl EOF.

(** *** Unmarshal: storing a document into typed Go values *)

(** The name an [UnmarshalTypeError] gives to the kind of a document. *)
Definition kind (v : JSON) : string :=
  match v with
  | JNull => "null"
  | JBool _ => "bool"
  | JNum _ => "number"
  | JStr _ => "string"
  | JArr _ => "array"
  | JObj _ => "object"
  end.

(** Storing a document into a value of type [A]: the updated value and
    the error to save, if any.  A mismatch leaves the value as it was. *)
Definition Store (A : Type) := JSON -> A -> A * option DecodeError.

Definition store_string (Struct Field : string) : Store string :=
  fun v cur =>
    match v with
    | JStr s => (s, None)
    | JNull => (cur, None)
    | _ => (cur, Some (UnmarshalTypeError (kind v) Struct Field "string"))
    end.

Definition store_int (Type_ Struct Field : string) : Store Z :=
  fun v cur =>
    match v with
    | JNum lit =>
      match ParseInt lit with
      | Some n => (n, None)
      | None => (cur, Some (UnmarshalTypeError ("number " ++ lit) Struct Field Type_))
      end
    | JNull => (cur, None)
    | _ => (cur, Some (UnmarshalTypeError (kind v) Struct Field Type_))
    end.

(** [foldName]: upper-case ASCII; the two non-ASCII letters whose simple
    case folding lands in ASCII are U+017F (to S) and U+212A (to K). *)
Fixpoint foldName (s : string) : string :=
  match s with
  | EmptyString => EmptyString
  | String c r =>
    match r with
    | String c1 r1 =>
      if ((code c =? 197) && (code c1 =? 191))%N then String "S" (foldName r1)
      else
        match r1 with
        | String c2 r2 =>
          if ((code c =? 226) && (code c1 =? 132) && (code c2 =? 170))%N
          then String "K" (foldName r2)
          else String (to_upper c) (foldName r)
        | EmptyString => String (to_upper c) (foldName r)
        end
    | EmptyString => String (to_upper c) EmptyString
    end
  end.

(** A struct field as the decoder sees it: its JSON name and how a
    document is stored into it. *)
Record FieldSpec (A : Type) : Type := mkField { name : string; store : Store A }.
Arguments mkField {A} name store.
Arguments name {A} f.
Arguments store {A} f.

(** The field an object key selects: an exact match first, otherwise the
    first field equal under case folding. *)
Definition field_for {A} (fields : list (FieldSpec A)) (key : string)
  : option (FieldSpec A) :=
  match find (fun f => String.eqb (name f) key) fields with
  | Some f => Some f
  | None => find (fun f => String.eqb (foldName (name f)) (foldName key)) fields
  end.

(** [saveError]: only the first error is kept. *)
Definition saveError (saved e : option DecodeError) : option DecodeError :=
  match saved with
  | Some _ => saved
  | None => e
  end.

(** [decodeState.object] into a struct: members in document order, later
    duplicates overwrite, unknown keys are skipped. *)
Definition object {A} (fields : list (FieldSpec A))
           (ms : list (string * JSON)) (a : A) : A * option DecodeError :=
  fold_left
    (fun (acc : A * option DecodeError) (m : string * JSON) =>
       match field_for fields (fst m) with
       | None => acc
       | Some f =>
         let r := store f (snd m) (fst acc) in
         (fst r, saveError (snd acc) (snd r))
       end)
    ms (a, None).

Definition store_struct {A} (Type_ Struct Field : string)
           (fields : list (FieldSpec A)) : Store A :=
  fun v a =>
    match v with
    | JObj ms => object fields ms a
    | JNull => (a, None)
    | _ => (a, Some (UnmarshalTypeError (kind v) Struct Field Type_))
    end.

(** A store whose failures are never [io.EOF]. *)
Definition type_errors_only {A} (st : Store A) : Prop :=
  forall v a a' e, st v a = (a', Some e) -> e <> EOF.

(** A store into a struct field, from the store of the field's type. *)
Definition into_field {A B} (get : A -> B) (set : A -> B -> A) (st : Store B)
  : Store A :=
  fun v a => let r := st v (get a) in (set a (fst r), snd r).

(** [json.NewDecoder(body).Decode(&a)], first call on the stream: read
    one value, then unmarshal it into [a].  On an error the caller gets
    the error (and a partly filled value it does not look at). *)
Definition Decode {A} (st : Store A) (body : string) (a : A) : DecodeError + A :=
  match readValue body with
  | inl e => inl e
  | inr (v, _) =>
    match st v a with
    | (a', None) => inr a'
    | (_, Some e) => inl e
    end
  end.

(** *** Encoding *)

(** [Encode] of a slice: [nil] is the JSON value [null], anything else
    an array. *)
Definition encode_slice {A} (enc : A -> JSON) (s : Slice A) : JSON :=
  match s with
  | None => JNull
  | Some l => JArr (map enc l)
  end.

Definition encode_int (z : Z) : JSON := JNum (itoa z).

(** Member access on an encoded object. *)
Fixpoint member (key : string) (ms : list (string * JSON)) : option JSON :=
  match ms with
  | [] => None
  | (k, v) :: r => if String.eqb k key then Some v else member key r
  end.
Definition get (key : string) (v : JSON) : option JSON :=
  match v with
  | JObj ms => member key ms
  | _ => None
  end.

(** [path [k1; ...; kn] v] is [v.k1. ... .kn]. *)
Fixpoint path (keys : list string) (v : JSON) : option JSON :=
  match keys with
  | [] => Some v
  | k :: r =>
    match get k v with
    | Some v' => path r v'
    | None => None
    end
  end.

End Json.

(** ** net/http: requests, the response writer, [http.Error] *)

Module Http.
Import Go.

(** [http.Header]: canonical key to values, as the server hands it over. *)
Definition Header := list (string * list string).

Fixpoint Header_Get (h : Header) (key : string) : string :=
  match h with
  | [] => ""
  | (k, vs) :: r =>
    if String.eqb k key then match vs with v :: _ => v | [] => "" end
    else Header_Get r key
  end.

Fixpoint Header_Del (h : Header) (key : string) : Header :=
  match h with
  | [] => []
  | (k, vs) :: r =>
    if String.eqb k key then Header_Del r key else (k, vs) :: Header_Del r key
  end.

Definition Header_Set (h : Header) (key value : string) : Header :=
  (Header_Del h key ++ [(key, [value])])%list.

(** An incoming request, its body read to the end. *)
Record Request : Type := mkRequest {
  Method : string;
  Header_ : Header;
  Body : string
}.

Definition MethodGet : string := "GET".
Definition StatusOK : Z := 200.
Definition StatusCreated : Z := 201.
Definition StatusBadRequest : Z := 400.
Definition StatusMethodNotAllowed : Z := 405.
Definition StatusInternalServerError : Z := 500.

(** What a handler writes to the body: raw text, or one document written
    by a [json.Encoder] (the document followed by a newline). *)
Inductive Chunk : Type :=
| Text (s : string)
| Document (v : Json.JSON).

(** The response so far: the header map, the status once the header has
    been written, the body. *)
Record ResponseWriter : Type := mkResponseWriter {
  header : Header;
  status : option Z;
  body : list Chunk
}.

Definition fresh : ResponseWriter := mkResponseWriter [] None [].

Definition set_header (w : ResponseWriter) (key value : string) : ResponseWriter :=
  mkResponseWriter (Header_Set (header w) key value) (status w) (body w).

Definition del_header (w : ResponseWriter) (key : string) : ResponseWriter :=
  mkResponseWriter (Header_Del (header w) key) (status w) (body w).

(** Only the first [WriteHeader] counts. *)
Definition WriteHeader (w : ResponseWriter) (code : Z) : ResponseWriter :=
  match status w with
  | None => mkResponseWriter (header w) (Some code) (body w)
  | Some _ => w
  end.

(** A write before [WriteHeader] sends [200 OK] first. *)
Definition Write (w : ResponseWriter) (c : Chunk) : ResponseWriter :=
  let w := WriteHeader w StatusOK in
  mkResponseWriter (header w) (status w) (body w ++ [c])%list.

Definition newline : string := String (byte 10) EmptyString.

(** [fmt.Fprintln(w, s)]. *)
Definition Fprintln (w : ResponseWriter) (s : string) : ResponseWriter :=
  Write w (Text (s ++ newline)).

(** [http.Error(w, error, code)]. *)
Definition Error (w : ResponseWriter) (error : string) (code : Z) : ResponseWriter :=
  let w := del_header w "Content-Length" in
  let w := set_header w "Content-Type" "text/plain; charset=utf-8" in
  let w := set_header w "X-Content-Type-Options" "nosniff" in
  let w := WriteHeader w code in
  Fprintln w error.

End Http.

(** ** database/sql over the table [urls] *)

Module Sql.
Import Go.

(** A row of [urls (id UUID PRIMARY KEY, url TEXT NOT NULL)]; in Go, the
    struct [URL] with its JSON names [id] and [url]. *)
Record URL : Type := mkURL { URL_ID : string; URL_URL : string }.

(** A column value as the driver returns it. *)
Inductive Value : Type :=
| Null
| Str (s : string)
| Int64 (z : Z).

(** The statements the service sends. *)
Inductive Statement : Type :=
| InsertURL (id url : string)      (* INSERT INTO urls (id, url) VALUES ($1, $2) *)
| DeleteURLs                       (* DELETE FROM urls *)
| SelectURLs                       (* SELECT id, url FROM urls *)
| CountURLs                        (* SELECT COUNT( * ) FROM urls *)
| SelectURLAt (offset : Z).        (* SELECT url FROM urls LIMIT 1 OFFSET <offset> *)

Definition ErrNoRows : string := "sql: no rows in result set".

(** Why the server refuses an insert, if it does: a second row with the
    same primary key, or a zero byte in a text value. *)
Definition insert_refused (table : list URL) (id url : string) : option string :=
  if existsb (fun u => String.eqb (URL_ID u) id) table
  then Some "pq: duplicate key value violates unique constraint urls_pkey"
  else if has_byte (byte 0) url
  then Some "pq: invalid byte sequence for encoding UTF8: 0x00"
  else None.

(** A row of the table, as [SELECT id, url] returns it. *)
Definition row_of (u : URL) : list Value := [Str (URL_ID u); Str (URL_URL u)].

(** What a statement does on a reachable server: the error, or the table
    afterwards and the rows returned (in the server's scan order). *)
Definition execute (q : Statement) (table : list URL)
  : string + (list URL * list (list Value)) :=
  match q with
  | InsertURL id url =>
    match insert_refused table id url with
    | Some e => inl e
    | None => inr ((table ++ [mkURL id url])%list, [])
    end
  | DeleteURLs => inr ([], [])
  | SelectURLs => inr (table, map row_of table)
  | CountURLs => inr (table, [[Int64 (Z.of_nat (List.length table))]])
  | SelectURLAt offset =>
    if offset <? 0 then inl "pq: OFFSET must not be negative"
    else
      inr (table,
           match nth_error table (Z.to_nat offset) with
           | Some u => [[Str (URL_URL u)]]
           | None => []
           end)
  end.

(** [convertAssign] into a [*string] and into an [*int]. *)
Definition assign_string (v : Value) : string + string :=
  match v with
  | Str s => inr s
  | Int64 z => inr (itoa z)
  | Null => inl "converting NULL to string is unsupported"
  end.

Definition assign_int (v : Value) : string + Z :=
  match v with
  | Int64 z =>
    if in_int z then inr z
    else inl ("converting driver.Value type int64 to a int: value out of range")
  | Str s =>
    match ParseInt s with
    | Some z => inr z
    | None => inl "converting driver.Value type string to a int"
    end
  | Null => inl "converting NULL to int is unsupported"
  end.

Definition scan_error (index : nat) (e : string) : string :=
  "sql: Scan error on column index " ++ itoa (Z.of_nat index) ++ ": " ++ e.

End Sql.

(** ** The process: its state, its environment and the effects of a handler *)

Module Proc.
Import Go Http Sql.

(** A request built with [http.NewRequest], for [client.Do]. *)
Record ClientRequest : Type := mkClientRequest {
  req_Method : string;
  req_URL : string;
  req_Header : Header
}.

(** [req.Header.Set(key, value)]. *)
Definition req_Header_Set (req : ClientRequest) (key value : string) : ClientRequest :=
  mkClientRequest (req_Method req) (req_URL req) (Header_Set (req_Header req) key value).

(** What the process does not decide: the outcome of the n-th interaction
    with the outside, indexed by a clock that every such interaction
    advances. *)
Record Env : Type := mkEnv {
  (** the database call made at this instant fails with this driver error *)
  db_fault : nat -> option string;
  (** [uuid.New().String()] *)
  uuid_New : nat -> string;
  (** the generator seeded with [time.Now().UnixNano()]: the number its
      next draw is reduced from *)
  rand_draw : nat -> Z;
  (** [http.NewRequest]: the error for a target it cannot parse *)
  NewRequest_error : string -> option string;
  (** [client.Do]: a transport error, or the body of the response (which
      arrives whole, whatever its status) *)
  RoundTrip : nat -> ClientRequest -> string + string
}.

Record State : Type := mkState {
  urls : list URL;              (** the rows of the table [urls] *)
  env : Env;
  clock : nat;
  sent : list ClientRequest;    (** the requests handed to [client.Do] *)
  stdout : list string;         (** lines printed with [fmt.Println] *)
  w : ResponseWriter            (** the response of the request being served *)
}.

Definition with_urls (s : State) (t : list URL) : State :=
  mkState t (env s) (clock s) (sent s) (stdout s) (w s).
Definition with_clock (s : State) (n : nat) : State :=
  mkState (urls s) (env s) n (sent s) (stdout s) (w s).
Definition with_sent (s : State) (l : list ClientRequest) : State :=
  mkState (urls s) (env s) (clock s) l (stdout s) (w s).
Definition with_stdout (s : State) (l : list string) : State :=
  mkState (urls s) (env s) (clock s) (sent s) l (w s).
Definition with_w (s : State) (rw : ResponseWriter) : State :=
  mkState (urls s) (env s) (clock s) (sent s) (stdout s) rw.

(** A computation returns a value or panics, in a new state. *)
Inductive Result (A : Type) : Type :=
| Return (a : A) (s : State)
| Panic (msg : string) (s : State).
Arguments Return {A} a s.
Arguments Panic {A} msg s.

Definition M (A : Type) : Type := State -> Result A.

Definition ret {A} (a : A) : M A := fun s => Return a s.
Definition bind {A B} (c : M A) (k : A -> M B) : M B :=
  fun s =>
    match c s with
    | Return a s' => k a s'
    | Panic msg s' => Panic msg s'
    end.
Definition panic {A} (msg : string) : M A := fun s => Panic msg s.

Declare Scope proc_scope.
Delimit Scope proc_scope with proc.
Notation "x <- c1 ;; c2" := (bind c1 (fun x => c2))
  (at level 61, c1 at next level, right associativity) : proc_scope.
Notation "c1 ;; c2" := (bind c1 (fun _ => c2))
  (at level 61, right associativity) : proc_scope.
Local Open Scope proc_scope.

Definition final_state {A} (r : Result A) : State :=
  match r with
  | Return _ s => s
  | Panic _ s => s
  end.

(** *** The response writer of the request *)

Definition respond (f : ResponseWriter -> ResponseWriter) : M unit :=
  fun s => Return tt (with_w s (f (w s))).

Definition http_Error (error : string) (code : Z) : M unit :=
  respond (fun rw => Http.Error rw error code).
Definition w_WriteHeader (code : Z) : M unit :=
  respond (fun rw => WriteHeader rw code).
Definition w_Header_Set (key value : string) : M unit :=
  respond (fun rw => set_header rw key value).
Definition w_Fprintln (s : string) : M unit :=
  respond (fun rw => Fprintln rw s).
(** [json.NewEncoder(w).Encode(v)], [v] already turned into a document. *)
Definition w_Encode (v : Json.JSON) : M unit :=
  respond (fun rw => Write rw (Document v)).

(** [fmt.Println(a, b)] on standard output. *)
Definition Println (line : string) : M unit :=
  fun s => Return tt (with_stdout s (stdout s ++ [(line ++ newline)%string])%list).

(** *** The database handle [db] *)

(** One round trip to the server: a driver fault, or the statement's own
    outcome. *)
Definition db_run (q : Statement) : M (string + list (list Value)) :=
  fun s =>
    let s1 := with_clock s (S (clock s)) in
    match db_fault (env s) (clock s) with
    | Some e => Return (inl e) s1
    | None =>
      match execute q (urls s) with
      | inl e => Return (inl e) s1
      | inr (t, rows) => Return (inr rows) (with_urls s1 t)
      end
    end.

(** [db.Exec]: only the error is looked at. *)
Definition db_Exec (q : Statement) : M error :=
  r <- db_run q ;;
  ret (match r with inl e => Some e | inr _ => None end).

(** [db.Query]: the error, or the rows to iterate over (the result set
    arrives whole: [rows.Next] does not fail half way). *)
Definition db_Query (q : Statement) : M (string + list (list Value)) := db_run q.

(** [db.QueryRow]: the error is kept in the [*Row] until [Scan]. *)
Definition Row : Type := string + list (list Value).
Definition db_QueryRow (q : Statement) : M Row := db_run q.

(** [Scan(&dest)] on a [*Row], with one destination. *)
Definition Row_Scan {A} (conv : Value -> string + A) (r : Row) : string + A :=
  match r with
  | inl e => inl e
  | inr [] => inl ErrNoRows
  | inr ([v] :: _) =>
    match conv v with
    | inl e => inl (scan_error 0 e)
    | inr a => inr a
    end
  | inr (cols :: _) =>
    inl ("sql: expected " ++ itoa (Z.of_nat (List.length cols))
           ++ " destination arguments in Scan, not 1")
  end.

(** [rows.Scan(&url.ID, &url.URL)]. *)
Definition Rows_Scan_URL (cols : list Value) : string + URL :=
  match cols with
  | [c0; c1] =>
    match assign_string c0 with
    | inl e => inl (scan_error 0 e)
    | inr id =>
      match assign_string c1 with
      | inl e => inl (scan_error 1 e)
      | inr url => inr (mkURL id url)
      end
    end
  | _ =>
    inl ("sql: expected " ++ itoa (Z.of_nat (List.length cols))
           ++ " destination arguments in Scan, not 2")
  end.

(** *** The other sources of nondeterminism *)

Definition uuid_New_String : M string :=
  fun s => Return (uuid_New (env s) (clock s)) (with_clock s (S (clock s))).

(** [rand.Seed(time.Now().UnixNano())] followed by [rand.Intn(n)]: a
    number in [[0, n)], a panic for [n <= 0]. *)
Definition rand_Intn (n : Z) : M Z :=
  fun s =>
    if n <=? 0 then Panic "invalid argument to Intn" s
    else Return (rand_draw (env s) (clock s) mod n) (with_clock s (S (clock s))).

(** [http.NewRequest(method, target, nil)], for a valid method. *)
Definition http_NewRequest (method target : string) : M (string + ClientRequest) :=
  fun s =>
    Return (match NewRequest_error (env s) target with
            | Some err => inl err
            | None => inr (mkClientRequest method target [])
            end) s.

Definition client_Do (req : ClientRequest) : M (string + string) :=
  fun s =>
    Return (RoundTrip (env s) (clock s) req)
           (with_sent (with_clock s (S (clock s))) (sent s ++ [req])%list).

(** The server runs a handler on a response writer of its own for each
    request. *)
Definition serve (handler : Request -> M unit) (r : Request) (s : State)
  : Result unit :=
  handler r (with_w s Http.fresh).

Definition response {A} (res : Result A) : ResponseWriter := w (final_state res).

End Proc.

(** ** The handlers every program of the repository shares

    [addURL] and [getURLs] are the same text in [main.go] (both programs),
    [part_001] and [part_000] (both programs); [clearURLs] in [main.go] and
    [part_000]; [getRandomURL] in both programs of [part_000]. *)

Module Handlers.
Import Go Http Sql Proc.
Local Open Scope proc_scope.

(** The struct [URL] for the decoder and the encoder. *)
Definition URL_fields : list (Json.FieldSpec URL) :=
  [ Json.mkField "id"
      (Json.into_field URL_ID (fun u x => mkURL x (URL_URL u))
         (Json.store_string "URL" "id"));
    Json.mkField "url"
      (Json.into_field URL_URL (fun u x => mkURL (URL_ID u) x)
         (Json.store_string "URL" "url")) ].

Definition store_URL : Json.Store URL := Json.store_struct "main.URL" "" "" URL_fields.

Definition encode_URL (u : URL) : Json.JSON :=
  Json.JObj [("id", Json.JStr (URL_ID u)); ("url", Json.JStr (URL_URL u))].

(** [fmt.Errorf(prefix + ": %w", err)]. *)
Definition Errorf (prefix err : string) : string := prefix ++ ": " ++ err.

Definition addURL (r : Request) : M unit :=
  let url := mkURL "" "" in
  if negb (String.eqb (Header_Get (Header_ r) "Content-Type") "application/json") then
    http_Error "Content-Type must be application/json" StatusBadRequest
  else
    match Json.Decode store_URL (Body r) url with
    | inl err =>
      if String.eqb (Json.Error err) "EOF" then
        http_Error "Empty request body" StatusBadRequest
      else
        http_Error "Invalid request payload" StatusBadRequest
    | inr url =>
      id <- uuid_New_String ;;
      let url := mkURL id (URL_URL url) in
      err <- db_Exec (InsertURL (URL_ID url) (URL_URL url)) ;;
      match err with
      | Some _ => http_Error "Error adding URL to database" StatusInternalServerError
      | None =>
        w_WriteHeader StatusCreated ;;
        w_Encode (encode_URL url)
      end
    end.

(** The loop [for rows.Next() { ... }] of [getURLs]: the slice built, or
    the error of the first [Scan] that fails. *)
Fixpoint scan_rows (rows : list (list Value)) (urls : Slice URL) : string + Slice URL :=
  match rows with
  | [] => inr urls
  | cols :: rest =>
    match Rows_Scan_URL cols with
    | inl err => inl err
    | inr url => scan_rows rest (append urls url)
    end
  end.

Definition getURLs (r : Request) : M unit :=
  res <- db_Query SelectURLs ;;
  match res with
  | inl _ => http_Error "Error retrieving URLs from database" StatusInternalServerError
  | inr rows =>
    match scan_rows rows None with
    | inl _ => http_Error "Error scanning URL from database" StatusInternalServerError
    | inr urls =>
      w_Header_Set "Content-Type" "application/json" ;;
      w_Encode (Json.encode_slice encode_URL urls)
    end
  end.

Definition clearURLs (r : Request) : M unit :=
  if negb (String.eqb (Method r) MethodGet) then
    http_Error "Invalid method. Only GET is allowed" StatusMethodNotAllowed
  else
    err <- db_Exec DeleteURLs ;;
    match err with
    | Some _ => http_Error "Error clearing URLs from database" StatusInternalServerError
    | None =>
      w_WriteHeader StatusOK ;;
      w_Fprintln "All URLs have been removed from the database."
    end.

(** The result of [SELECT COUNT( * ) FROM urls] in a state. *)
Definition row_count (s : State) : Z := Z.of_nat (List.length (urls s)).

Definition getRandomURL : M (string * error) :=
  row <- db_QueryRow CountURLs ;;
  match Row_Scan assign_int row with
  | inl err => ret ("", Some (Errorf "error getting URL count" err))
  | inr count =>
    if count =? 0 then ret ("", Some "no URLs found in the database")
    else
      n <- rand_Intn count ;;
      let randomIndex := Go.add n 1 in
      let query := SelectURLAt (Go.sub randomIndex 1) in
      row <- db_QueryRow query ;;
      match Row_Scan assign_string row with
      | inl err => ret ("", Some (Errorf "error retrieving random URL" err))
      | inr url => ret (url, None)
      end
  end.

End Handlers.

(** ** The program with the remote status check ([part_000], first program:
    routes [/api/new], [/api/list], [/api/get]) *)

Module Strict.
Import Go Http Sql Proc Handlers.
Local Open Scope proc_scope.

(** The struct [VideoInfo] and its anonymous member structs. *)
Record VideoInfo_Music : Type := mkMusic {
  Music_ID : string;
  Music_Title : string;
  Music_Play : string;
  Music_Cover : string
}.
Record VideoInfo_Author : Type := mkAuthor {
  Author_ID : string;
  UniqueID : string;
  Nickname : string;
  Avatar : string
}.
Record VideoInfo_Data : Type := mkData {
  ID : string;
  Region : string;
  Title : string;
  Cover : string;
  AI_Dynamic_Cover : string;
  Origin_Cover : string;
  Duration : Z;
  Play : string;
  WMPlay : string;
  Size : Z;
  WMSize : Z;
  Music : VideoInfo_Music;
  PlayCount : Z;
  DiggCount : Z;
  CommentCount : Z;
  ShareCount : Z;
  DownloadCount : Z;
  CollectCount : Z;
  CreateTime : Z;
  Author : VideoInfo_Author
}.
Record VideoInfo : Type := mkVideoInfo {
  Code : Z;
  Msg : string;
  Data : VideoInfo_Data
}.

(** Field assignment. *)
Definition set_Music_ID (r : VideoInfo_Music) (x : string) : VideoInfo_Music :=
  mkMusic x (Music_Title r) (Music_Play r) (Music_Cover r).
Definition set_Music_Title (r : VideoInfo_Music) (x : string) : VideoInfo_Music :=
  mkMusic (Music_ID r) x (Music_Play r) (Music_Cover r).
Definition set_Music_Play (r : VideoInfo_Music) (x : string) : VideoInfo_Music :=
  mkMusic (Music_ID r) (Music_Title r) x (Music_Cover r).
Definition set_Music_Cover (r : VideoInfo_Music) (x : string) : VideoInfo_Music :=
  mkMusic (Music_ID r) (Music_Title r) (Music_Play r) x.
Definition set_Author_ID (r : VideoInfo_Author) (x : string) : VideoInfo_Author :=
  mkAuthor x (UniqueID r) (Nickname r) (Avatar r).
Definition set_UniqueID (r : VideoInfo_Author) (x : string) : VideoInfo_Author :=
  mkAuthor (Author_ID r) x (Nickname r) (Avatar r).
Definition set_Nickname (r : VideoInfo_Author) (x : string) : VideoInfo_Author :=
  mkAuthor (Author_ID r) (UniqueID r) x (Avatar r).
Definition set_Avatar (r : VideoInfo_Author) (x : string) : VideoInfo_Author :=
  mkAuthor (Author_ID r) (UniqueID r) (Nickname r) x.
Definition set_ID (r : VideoInfo_Data) (x : string) : VideoInfo_Data :=
  mkData x (Region r) (Title r) (Cover r) (AI_Dynamic_Cover r) (Origin_Cover r) (Duration r) (Play r) (WMPlay r) (Size r) (WMSize r) (Music r) (PlayCount r) (DiggCount r) (CommentCount r) (ShareCount r) (DownloadCount r) (CollectCount r) (CreateTime r) (Author r).
Definition set_Region (r : VideoInfo_Data) (x : string) : VideoInfo_Data :=
  mkData (ID r) x (Title r) (Cover r) (AI_Dynamic_Cover r) (Origin_Cover r) (Duration r) (Play r) (WMPlay r) (Size r) (WMSize r) (Music r) (PlayCount r) (DiggCount r) (CommentCount r) (ShareCount r) (DownloadCount r) (CollectCount r) (CreateTime r) (Author r).
Definition set_Title (r : VideoInfo_Data) (x : string) : VideoInfo_Data :=
  mkData (ID r) (Region r) x (Cover r) (AI_Dynamic_Cover r) (Origin_Cover r) (Duration r) (Play r) (WMPlay r) (Size r) (WMSize r) (Music r) (PlayCount r) (DiggCount r) (CommentCount r) (ShareCount r) (DownloadCount r) (CollectCount r) (CreateTime r) (Author r).
Definition set_Cover (r : VideoInfo_Data) (x : string) : VideoInfo_Data :=
  mkData (ID r) (Region r) (Title r) x (AI_Dynamic_Cover r) (Origin_Cover r) (Duration r) (Play r) (WMPlay r) (Size r) (WMSize r) (Music r) (PlayCount r) (DiggCount r) (CommentCount r) (ShareCount r) (DownloadCount r) (CollectCount r) (CreateTime r) (Author r).
Definition set_AI_Dynamic_Cover (r : VideoInfo_Data) (x : string) : VideoInfo_Data :=
  mkData (ID r) (Region r) (Title r) (Cover r) x (Origin_Cover r) (Duration r) (Play r) (WMPlay r) (Size r) (WMSize r) (Music r) (PlayCount r) (DiggCount r) (CommentCount r) (ShareCount r) (DownloadCount r) (CollectCount r) (CreateTime r) (Author r).
Definition set_Origin_Cover (r : VideoInfo_Data) (x : string) : VideoInfo_Data :=
  mkData (ID r) (Region r) (Title r) (Cover r) (AI_Dynamic_Cover r) x (Duration r) (Play r) (WMPlay r) (Size r) (WMSize r) (Music r) (PlayCount r) (DiggCount r) (CommentCount r) (ShareCount r) (DownloadCount r) (CollectCount r) (CreateTime r) (Author r).
Definition set_Duration (r : VideoInfo_Data) (x : Z) : VideoInfo_Data :=
  mkData (ID r) (Region r) (Title r) (Cover r) (AI_Dynamic_Cover r) (Origin_Cover r) x (Play r) (WMPlay r) (Size r) (WMSize r) (Music r) (PlayCount r) (DiggCount r) (CommentCount r) (ShareCount r) (DownloadCount r) (CollectCount r) (CreateTime r) (Author r).
Definition set_Play (r : VideoInfo_Data) (x : string) : VideoInfo_Data :=
  mkData (ID r) (Region r) (Title r) (Cover r) (AI_Dynamic_Cover r) (Origin_Cover r) (Duration r) x (WMPlay r) (Size r) (WMSize r) (Music r) (PlayCount r) (DiggCount r) (CommentCount r) (ShareCount r) (DownloadCount r) (CollectCount r) (CreateTime r) (Author r).
Definition set_WMPlay (r : VideoInfo_Data) (x : string) : VideoInfo_Data :=
  mkData (ID r) (Region r) (Title r) (Cover r) (AI_Dynamic_Cover r) (Origin_Cover r) (Duration r) (Play r) x (Size r) (WMSize r) (Music r) (PlayCount r) (DiggCount r) (CommentCount r) (ShareCount r) (DownloadCount r) (CollectCount r) (CreateTime r) (Author r).
Definition set_Size (r : VideoInfo_Data) (x : Z) : VideoInfo_Data :=
  mkData (ID r) (Region r) (Title r) (Cover r) (AI_Dynamic_Cover r) (Origin_Cover r) (Duration r) (Play r) (WMPlay r) x (WMSize r) (Music r) (PlayCount r) (DiggCount r) (CommentCount r) (ShareCount r) (DownloadCount r) (CollectCount r) (CreateTime r) (Author r).
Definition set_WMSize (r : VideoInfo_Data) (x : Z) : VideoInfo_Data :=
  mkData (ID r) (Region r) (Title r) (Cover r) (AI_Dynamic_Cover r) (Origin_Cover r) (Duration r) (Play r) (WMPlay r) (Size r) x (Music r) (PlayCount r) (DiggCount r) (CommentCount r) (ShareCount r) (DownloadCount r) (CollectCount r) (CreateTime r) (Author r).
Definition set_Music (r : VideoInfo_Data) (x : VideoInfo_Music) : VideoInfo_Data :=
  mkData (ID r) (Region r) (Title r) (Cover r) (AI_Dynamic_Cover r) (Origin_Cover r) (Duration r) (Play r) (WMPlay r) (Size r) (WMSize r) x (PlayCount r) (DiggCount r) (CommentCount r) (ShareCount r) (DownloadCount r) (CollectCount r) (CreateTime r) (Author r).
Definition set_PlayCount (r : VideoInfo_Data) (x : Z) : VideoInfo_Data :=
  mkData (ID r) (Region r) (Title r) (Cover r) (AI_Dynamic_Cover r) (Origin_Cover r) (Duration r) (Play r) (WMPlay r) (Size r) (WMSize r) (Music r) x (DiggCount r) (CommentCount r) (ShareCount r) (DownloadCount r) (CollectCount r) (CreateTime r) (Author r).
Definition set_DiggCount (r : VideoInfo_Data) (x : Z) : VideoInfo_Data :=
  mkData (ID r) (Region r) (Title r) (Cover r) (AI_Dynamic_Cover r) (Origin_Cover r) (Duration r) (Play r) (WMPlay r) (Size r) (WMSize r) (Music r) (PlayCount r) x (CommentCount r) (ShareCount r) (DownloadCount r) (CollectCount r) (CreateTime r) (Author r).
Definition set_CommentCount (r : VideoInfo_Data) (x : Z) : VideoInfo_Data :=
  mkData (ID r) (Region r) (Title r) (Cover r) (AI_Dynamic_Cover r) (Origin_Cover r) (Duration r) (Play r) (WMPlay r) (Size r) (WMSize r) (Music r) (PlayCount r) (DiggCount r) x (ShareCount r) (DownloadCount r) (CollectCount r) (CreateTime r) (Author r).
Definition set_ShareCount (r : VideoInfo_Data) (x : Z) : VideoInfo_Data :=
  mkData (ID r) (Region r) (Title r) (Cover r) (AI_Dynamic_Cover r) (Origin_Cover r) (Duration r) (Play r) (WMPlay r) (Size r) (WMSize r) (Music r) (PlayCount r) (DiggCount r) (CommentCount r) x (DownloadCount r) (CollectCount r) (CreateTime r) (Author r).
Definition set_DownloadCount (r : VideoInfo_Data) (x : Z) : VideoInfo_Data :=
  mkData (ID r) (Region r) (Title r) (Cover r) (AI_Dynamic_Cover r) (Origin_Cover r) (Duration r) (Play r) (WMPlay r) (Size r) (WMSize r) (Music r) (PlayCount r) (DiggCount r) (CommentCount r) (ShareCount r) x (CollectCount r) (CreateTime r) (Author r).
Definition set_CollectCount (r : VideoInfo_Data) (x : Z) : VideoInfo_Data :=
  mkData (ID r) (Region r) (Title r) (Cover r) (AI_Dynamic_Cover r) (Origin_Cover r) (Duration r) (Play r) (WMPlay r) (Size r) (WMSize r) (Music r) (PlayCount r) (DiggCount r) (CommentCount r) (ShareCount r) (DownloadCount r) x (CreateTime r) (Author r).
Definition set_CreateTime (r : VideoInfo_Data) (x : Z) : VideoInfo_Data :=
  mkData (ID r) (Region r) (Title r) (Cover r) (AI_Dynamic_Cover r) (Origin_Cover r) (Duration r) (Play r) (WMPlay r) (Size r) (WMSize r) (Music r) (PlayCount r) (DiggCount r) (CommentCount r) (ShareCount r) (DownloadCount r) (CollectCount r) x (Author r).
Definition set_Author (r : VideoInfo_Data) (x : VideoInfo_Author) : VideoInfo_Data :=
  mkData (ID r) (Region r) (Title r) (Cover r) (AI_Dynamic_Cover r) (Origin_Cover r) (Duration r) (Play r) (WMPlay r) (Size r) (WMSize r) (Music r) (PlayCount r) (DiggCount r) (CommentCount r) (ShareCount r) (DownloadCount r) (CollectCount r) (CreateTime r) x.
Definition set_Code (r : VideoInfo) (x : Z) : VideoInfo :=
  mkVideoInfo x (Msg r) (Data r).
Definition set_Msg (r : VideoInfo) (x : string) : VideoInfo :=
  mkVideoInfo (Code r) x (Data r).
Definition set_Data (r : VideoInfo) (x : VideoInfo_Data) : VideoInfo :=
  mkVideoInfo (Code r) (Msg r) x.

(** The zero value, [var videoInfo VideoInfo]. *)
Definition zero_Music : VideoInfo_Music := mkMusic "" "" "" "".
Definition zero_Author : VideoInfo_Author := mkAuthor "" "" "" "".
Definition zero_Data : VideoInfo_Data :=
  mkData "" "" "" "" "" "" 0 "" "" 0 0 zero_Music 0 0 0 0 0 0 0 zero_Author.
Definition zero_VideoInfo : VideoInfo := mkVideoInfo 0 "" zero_Data.

(** The fields as the decoder sees them, by their [json] tags.  (Go
    prints the type of an anonymous struct in full in a type error; it is
    abbreviated to [struct] here.) *)
Definition Music_fields : list (Json.FieldSpec VideoInfo_Music) :=
  [ Json.mkField "id" (Json.into_field Music_ID set_Music_ID (Json.store_string "" "data.music_info.id"));
    Json.mkField "title" (Json.into_field Music_Title set_Music_Title (Json.store_string "" "data.music_info.title"));
    Json.mkField "play" (Json.into_field Music_Play set_Music_Play (Json.store_string "" "data.music_info.play"));
    Json.mkField "cover" (Json.into_field Music_Cover set_Music_Cover (Json.store_string "" "data.music_info.cover")) ].
Definition Author_fields : list (Json.FieldSpec VideoInfo_Author) :=
  [ Json.mkField "id" (Json.into_field Author_ID set_Author_ID (Json.store_string "" "data.author.id"));
    Json.mkField "unique_id" (Json.into_field UniqueID set_UniqueID (Json.store_string "" "data.author.unique_id"));
    Json.mkField "nickname" (Json.into_field Nickname set_Nickname (Json.store_string "" "data.author.nickname"));
    Json.mkField "avatar" (Json.into_field Avatar set_Avatar (Json.store_string "" "data.author.avatar")) ].
Definition Data_fields : list (Json.FieldSpec VideoInfo_Data) :=
  [ Json.mkField "id" (Json.into_field ID set_ID (Json.store_string "" "data.id"));
    Json.mkField "region" (Json.into_field Region set_Region (Json.store_string "" "data.region"));
    Json.mkField "title" (Json.into_field Title set_Title (Json.store_string "" "data.title"));
    Json.mkField "cover" (Json.into_field Cover set_Cover (Json.store_string "" "data.cover"));
    Json.mkField "ai_dynamic_cover" (Json.into_field AI_Dynamic_Cover set_AI_Dynamic_Cover (Json.store_string "" "data.ai_dynamic_cover"));
    Json.mkField "origin_cover" (Json.into_field Origin_Cover set_Origin_Cover (Json.store_string "" "data.origin_cover"));
    Json.mkField "duration" (Json.into_field Duration set_Duration (Json.store_int "int" "" "data.duration"));
    Json.mkField "play" (Json.into_field Play set_Play (Json.store_string "" "data.play"));
    Json.mkField "wmplay" (Json.into_field WMPlay set_WMPlay (Json.store_string "" "data.wmplay"));
    Json.mkField "size" (Json.into_field Size set_Size (Json.store_int "int" "" "data.size"));
    Json.mkField "wm_size" (Json.into_field WMSize set_WMSize (Json.store_int "int" "" "data.wm_size"));
    Json.mkField "music_info" (Json.into_field Music set_Music (Json.store_struct "struct" "" "data.music_info" Music_fields));
    Json.mkField "play_count" (Json.into_field PlayCount set_PlayCount (Json.store_int "int" "" "data.play_count"));
    Json.mkField "digg_count" (Json.into_field DiggCount set_DiggCount (Json.store_int "int" "" "data.digg_count"));
    Json.mkField "comment_count" (Json.into_field CommentCount set_CommentCount (Json.store_int "int" "" "data.comment_count"));
    Json.mkField "share_count" (Json.into_field ShareCount set_ShareCount (Json.store_int "int" "" "data.share_count"));
    Json.mkField "download_count" (Json.into_field DownloadCount set_DownloadCount (Json.store_int "int" "" "data.download_count"));
    Json.mkField "collect_count" (Json.into_field CollectCount set_CollectCount (Json.store_int "int" "" "data.collect_count"));
    Json.mkField "create_time" (Json.into_field CreateTime set_CreateTime (Json.store_int "int64" "" "data.create_time"));
    Json.mkField "author" (Json.into_field Author set_Author (Json.store_struct "struct" "" "data.author" Author_fields)) ].
Definition VideoInfo_fields : list (Json.FieldSpec VideoInfo) :=
  [ Json.mkField "code" (Json.into_field Code set_Code (Json.store_int "int" "VideoInfo" "code"));
    Json.mkField "msg" (Json.into_field Msg set_Msg (Json.store_string "VideoInfo" "msg"));
    Json.mkField "data" (Json.into_field Data set_Data (Json.store_struct "struct" "VideoInfo" "data" Data_fields)) ].

Definition store_VideoInfo : Json.Store VideoInfo :=
  Json.store_struct "main.VideoInfo" "" "" VideoInfo_fields.

(** The struct [VideoDataResponse]. *)
Record VideoDataResponse_User : Type := mkUser {
  Username : string;
  User_Nickname : string;
  UserID : string
}.
Record VideoDataResponse_Data : Type := mkResponseData {
  Resp_Region : string;
  Resp_URL : string;
  Resp_Cover : string;
  Resp_Title : string;
  Resp_Duration : string;
  Resp_User : VideoDataResponse_User
}.
Record VideoDataResponse : Type := mkVideoDataResponse {
  Resp_Code : Z;
  Resp_Msg : string;
  Resp_Data : VideoDataResponse_Data
}.

Definition encode_VideoDataResponse (r : VideoDataResponse) : Json.JSON :=
  let d := Resp_Data r in
  let u := Resp_User d in
  Json.JObj
    [ ("code", Json.encode_int (Resp_Code r));
      ("msg", Json.JStr (Resp_Msg r));
      ("data",
       Json.JObj
         [ ("region", Json.JStr (Resp_Region d));
           ("url", Json.JStr (Resp_URL d));
           ("cover", Json.JStr (Resp_Cover d));
           ("title", Json.JStr (Resp_Title d));
           ("duration", Json.JStr (Resp_Duration d));
           ("user",
            Json.JObj
              [ ("username", Json.JStr (Username u));
                ("nickname", Json.JStr (User_Nickname u));
                ("userID", Json.JStr (UserID u)) ]) ]) ].

(** [fmt.Sprintf] of the request target: the stored URL is pasted in as
    it is. *)
Definition api_url (url : string) : string := "https://tikwm.com/api?url=" ++ url.

Definition user_agent : string :=
  "Mozilla/5.0 (Windows NT 10.0; Win64; x64) AppleWebKit/537.36 (KHTML, like Gecko) Chrome/91.0.4472.124 Safari/537.36".

(** The request [getVideoInfo] hands to the client for a stored URL. *)
Definition api_request (url : string) : ClientRequest :=
  mkClientRequest "GET" (api_url url) [("User-Agent", [user_agent])].

Definition getVideoInfo (url : string) : M (option VideoInfo * error) :=
  req <- http_NewRequest "GET" (api_url url) ;;
  match req with
  | inl err => ret (None, Some (Errorf "error creating request" err))
  | inr req =>
    let req := req_Header_Set req "User-Agent" user_agent in
    response <- client_Do req ;;
    match response with
    | inl err => ret (None, Some (Errorf "error fetching video info" err))
    | inr body =>
      match Json.Decode store_VideoInfo body zero_VideoInfo with
      | inl err => ret (None, Some (Errorf "error decoding video info" (Json.Error err)))
      | inr videoInfo =>
        if negb (Code videoInfo =? 0) then
          ret (None, Some ("API error: " ++ Msg videoInfo))
        else ret (Some videoInfo, None)
      end
    end
  end.

(** The composite literal [responseData := VideoDataResponse{...}] of
    [getVideoData]. *)
Definition responseData (videoInfo : VideoInfo) : VideoDataResponse :=
  mkVideoDataResponse 200 "success"
    (mkResponseData
       (Region (Data videoInfo))
       ("https://www.tikwm.com/video/media/hdplay/" ++ ID (Data videoInfo) ++ ".mp4")
       (Cover (Data videoInfo))
       (Title (Data videoInfo))
       (itoa (Duration (Data videoInfo)) ++ "s")
       (mkUser
          (UniqueID (Author (Data videoInfo)))
          (Nickname (Author (Data videoInfo)))
          (Author_ID (Author (Data videoInfo))))).

Definition getVideoData (r : Request) : M unit :=
  res <- getRandomURL ;;
  match res with
  | (_, Some err) =>
    http_Error ("Error fetching random URL: " ++ err) StatusInternalServerError
  | (randomURL, None) =>
    Println ("Fetching video for URL: " ++ randomURL) ;;
    res <- getVideoInfo randomURL ;;
    match res with
    | (_, Some err) =>
      http_Error ("Error fetching video: " ++ err) StatusInternalServerError
    | (None, None) => panic "invalid memory address or nil pointer dereference"
    | (Some videoInfo, None) =>
      w_Header_Set "Content-Type" "application/json" ;;
      w_Encode (encode_VideoDataResponse (responseData videoInfo))
    end
  end.

End Strict.

(** ** States and requests to run the handlers on *)

Module Fixture.
Import Go Http Sql Proc.

(** A JSON text written with apostrophes for its double quotes. *)
Fixpoint json (s : string) : string :=
  match s with
  | EmptyString => EmptyString
  | String c r => String (if Ascii.eqb c "'" then Json.quote else c) (json r)
  end.

Definition json_header : Header := [("Content-Type", ["application/json"])].

Definition post (body : string) : Request := mkRequest "POST" json_header body.
Definition get : Request := mkRequest "GET" [] "".

(** Identifiers in the textual form of a version 4 UUID. *)
Definition uuid_of (n : nat) : string :=
  let d := itoa (Z.of_nat n) in
  "6f1c2a90-3b7e-4d55-9a10-" ++ Json.drop (String.length d) "000000000000" ++ d.

(** A world where the database is reachable, the generator draws [7]
    and the remote API answers with [remote]. *)
Definition calm (remote : string) : Env :=
  mkEnv (fun _ => None) uuid_of (fun _ => 7) (fun _ => None) (fun _ _ => inr remote).

(** The same world with the database unreachable. *)
Definition db_down (remote : string) : Env :=
  mkEnv (fun _ => Some "dial tcp: connection refused") uuid_of (fun _ => 7)
        (fun _ => None) (fun _ _ => inr remote).

Definition boot (e : Env) (table : list URL) : State :=
  mkState table e 0 [] [] Http.fresh.

Definition three_rows : list URL :=
  [ mkURL (uuid_of 100) "https://vt.tiktok.com/ZS1/";
    mkURL (uuid_of 101) "https://vt.tiktok.com/ZS2/";
    mkURL (uuid_of 102) "https://vt.tiktok.com/ZS3/" ].

(** Answers of the remote API: a video, and a refusal. *)
Definition remote_video : string :=
  json "{'code':0,'msg':'success','processed_time':0.4,'data':{'id':'abc','region':'PH','title':'t','cover':'c','duration':30,'author':{'id':'uid1','unique_id':'u1','nickname':'N','avatar':'a'}}}".

Definition remote_refusal : string :=
  json "{'code':-1,'msg':'Url parsing is failed! Please check url.','processed_time':0.1}".

End Fixture.

(** * Facts *)

Import Go Json Http Sql Proc Handlers Strict.
Local Open Scope proc_scope.

(** ** [%d] prints what [ParseInt] reads *)

(** Reading the digits a numeral prints gives the value of the numeral. *)
Lemma digits_value_string_of_uint (d : Decimal.uint) (acc : Z) :
  digits_value acc (NilEmpty.string_of_uint d) = Some (uint_value acc d).
Proof.
  revert acc. induction d; intros acc; cbn [NilEmpty.string_of_uint digits_value uint_value];
    try reflexivity; apply IHd.
Qed.

Lemma uint_value_acc (d : Decimal.uint) (acc : positive) :
  uint_value (Z.pos acc) d = Z.pos (Pos.of_uint_acc d acc).
Proof.
  revert acc. induction d; intros acc; cbn [uint_value Pos.of_uint_acc];
    try reflexivity;
    match goal with
    | |- uint_value ?a d = _ =>
      match goal with
      | |- _ = Z.pos (Pos.of_uint_acc d ?p) =>
        replace a with (Z.pos p) by lia; apply IHd
      end
    end.
Qed.

Lemma uint_value_of_uint (d : Decimal.uint) : uint_value 0 d = Z.of_uint d.
Proof.
  unfold Z.of_uint.
  induction d; cbn [uint_value Pos.of_uint]; try reflexivity;
    try (exact IHd);
    match goal with
    | |- uint_value ?a d = Z.of_N (N.pos (Pos.of_uint_acc d ?p)) =>
      change a with (Z.pos p); rewrite uint_value_acc; reflexivity
    end.
Qed.

(** A printed numeral starts with a digit. *)
Lemma string_of_uint_head (d : Decimal.uint) :
  d <> Decimal.Nil ->
  exists c r, NilEmpty.string_of_uint d = String c r /\ is_digit c = true.
Proof.
  destruct d; intros H; try contradiction; cbn; eexists _, _; split; reflexivity.
Qed.

(** What [%d] prints is the decimal numeral of the integer: [ParseInt] reads
    it back. *)
Lemma ParseInt_itoa (z : Z) : in_int z = true -> ParseInt (itoa z) = Some z.
Proof.
  intros Hin. unfold itoa, ParseInt.
  assert (Hun : forall d, d <> Decimal.Nil ->
            exists c r, NilEmpty.string_of_uint d = String c r /\ is_digit c = true /\
              match NilEmpty.string_of_uint d with
              | EmptyString => None
              | _ => digits_value 0 (NilEmpty.string_of_uint d)
              end = Some (Z.of_uint d)).
  { intros d Hd. destruct (string_of_uint_head d Hd) as (c & r & E & Hc).
    exists c, r. split; [exact E | split; [exact Hc |]].
    rewrite <- uint_value_of_uint, <- digits_value_string_of_uint.
    rewrite E. reflexivity. }
  destruct z as [| p | p]; [reflexivity | |].
  - cbn [Z.to_int NilZero.string_of_int].
    pose proof (Unsigned.to_uint_nonnil p) as Hp.
    destruct (Hun _ Hp) as (c & r & E & Hc & Hv).
    assert (Hs : NilZero.string_of_uint (Pos.to_uint p) = NilEmpty.string_of_uint (Pos.to_uint p)).
    { unfold NilZero.string_of_uint. destruct (Pos.to_uint p); try reflexivity. contradiction. }
    rewrite Hs. rewrite E in Hv |- *.
    assert (Hm : Ascii.eqb c "-" = false).
    { destruct (Ascii.eqb_spec c "-"); [subst; discriminate | reflexivity]. }
    assert (Hpl : Ascii.eqb c "+" = false).
    { destruct (Ascii.eqb_spec c "+"); [subst; discriminate | reflexivity]. }
    rewrite Hm, Hpl, Hv.
    change (Z.of_uint (Pos.to_uint p)) with (Z.of_int (Z.to_int (Z.pos p))).
    rewrite DecimalZ.of_to, Hin. reflexivity.
  - cbn [Z.to_int NilZero.string_of_int].
    pose proof (Unsigned.to_uint_nonnil p) as Hp.
    destruct (Hun _ Hp) as (c & r & E & Hc & Hv).
    change (Ascii.eqb "-" "-") with true. cbn iota.
    assert (Hs : NilZero.string_of_uint (Pos.to_uint p) = NilEmpty.string_of_uint (Pos.to_uint p)).
    { unfold NilZero.string_of_uint. destruct (Pos.to_uint p); try reflexivity. contradiction. }
    rewrite Hs, Hv. cbn [option_map].
    change (- Z.of_uint (Pos.to_uint p)) with (Z.of_int (Z.to_int (Z.neg p))).
    rewrite DecimalZ.of_to, Hin. reflexivity.
Qed.

(** ** The scanner does not run out of fuel *)

Lemma shrinks_weaken {A} (n m : nat) (x : Scan A) :
  shrinks n x -> (n <= m)%nat -> shrinks m x.
Proof. destruct x; cbn; intros; auto; lia. Qed.

Lemma shrinks_map {A B} (f : A -> B) (n : nat) (x : Scan A) :
  shrinks n x -> shrinks n (scan_map f x).
Proof. destruct x; cbn; auto. Qed.

Lemma shrinks_bind {A B} (n m : nat) (x : Scan A) (k : A -> string -> Scan B) :
  shrinks n x ->
  (forall a rest, (String.length rest < n)%nat -> shrinks m (k a rest)) ->
  shrinks m (scan_bind x k).
Proof. destruct x; cbn; auto. Qed.

Lemma skip_space_length (s : string) :
  (String.length (skip_space s) <= String.length s)%nat.
Proof.
  induction s as [| c r IH]; cbn; [lia |].
  destruct (is_space c); cbn; lia.
Qed.

Lemma skip_space_cons (s : string) c r :
  skip_space s = String c r -> (String.length r < String.length s)%nat.
Proof.
  intros H. pose proof (skip_space_length s) as L. rewrite H in L. cbn in L. lia.
Qed.

(** The scanners of literals, numbers and escapes only move forward. *)
Lemma scan_literal_shrinks name expect s :
  shrinks (S (String.length s)) (scan_literal name expect s).
Proof.
  revert s. induction expect as [| e expect IH]; intros s; cbn; [lia |].
  destruct s as [| c r]; cbn; [exact I |].
  destruct (Ascii.eqb c e); [| exact I].
  eapply shrinks_weaken; [apply IH | lia].
Qed.

Lemma scan_number_shrinks st s :
  shrinks (S (String.length s)) (scan_number st s).
Proof.
  revert st. induction s as [| c r IH]; intros st; cbn.
  - destruct (num_final st); cbn; [lia | exact I].
  - destruct (num_step st c) as [st' | [ctx |]]; cbn; [| exact I | lia].
    apply shrinks_map. eapply shrinks_weaken; [apply IH | lia].
Qed.

Lemma scan_hex4_length s n rest :
  scan_hex4 s = Scanned n rest -> (String.length rest + 4 = String.length s)%nat.
Proof.
  unfold scan_hex4.
  destruct s as [| a [| b [| c [| d r]]]];
    repeat match goal with
           | |- context [hex_val ?x] => destruct (hex_val x)
           end; intros H; inversion H; subst; cbn; lia.
Qed.

Lemma getu4_length s n rest :
  getu4 s = Some (n, rest) -> (String.length rest + 6 = String.length s)%nat.
Proof.
  unfold getu4. destruct s as [| c0 [| c1 r]]; try discriminate.
  destruct (_ && _); [| discriminate].
  destruct (scan_hex4 r) eqn:E; try discriminate.
  intros H. inversion H; subst. apply scan_hex4_length in E. cbn. lia.
Qed.

Lemma rune_width_bounds s n :
  Utf8.rune_width s = Some n -> (1 <= n <= String.length s)%nat.
Proof.
  unfold Utf8.rune_width. destruct s as [| c0 r0]; [discriminate |].
  destruct (Utf8.second_range (code c0)) as [lo hi].
  repeat match goal with
         | |- context [if ?b then _ else _] => destruct b
         | |- context [match ?r with EmptyString => _ | String _ _ => _ end] => destruct r
         end; intros H; inversion H; subst; cbn; lia.
Qed.

Lemma drop_length n s :
  (n <= String.length s)%nat -> (String.length (drop n s) + n = String.length s)%nat.
Proof.
  revert s. induction n as [| n IH]; intros s H; cbn.
  - destruct s; cbn; lia.
  - destruct s as [| c r]; cbn in *; [lia |]. specialize (IH r). lia.
Qed.

(** With more fuel than bytes, scanning a string ends, and past the closing
    quote if it succeeds. *)
Lemma scan_string_shrinks fuel s :
  (String.length s < fuel)%nat -> shrinks (String.length s) (scan_string fuel s).
Proof.
  revert s. induction fuel as [| fuel IH]; intros s Hf; [lia |].
  assert (step : forall (g : string -> string) s',
             (String.length s' < String.length s)%nat ->
             shrinks (String.length s) (scan_map g (scan_string fuel s'))).
  { intros g s' L. apply shrinks_map.
    eapply shrinks_weaken; [apply IH |]; lia. }
  cbn [scan_string]. destruct s as [| c r]; [exact I |].
  destruct (Ascii.eqb c quote); [cbn; lia |].
  destruct (Ascii.eqb c backslash).
  - destruct r as [| e r1]; [exact I |].
    destruct (simple_escape e); [apply step; cbn; lia |].
    destruct (Ascii.eqb e "u"); [| exact I].
    destruct (scan_hex4 r1) as [rr r2 | |] eqn:E4; cbn [scan_bind]; try exact I.
    + apply scan_hex4_length in E4.
      destruct (Utf8.is_surrogate rr); [| apply step; cbn; lia].
      destruct (getu4 r2) as [[rr1 r3] |] eqn:Eu; [| apply step; cbn; lia].
      apply getu4_length in Eu.
      destruct (Utf8.decode_pair rr rr1); apply step; cbn; lia.
    + unfold scan_hex4 in E4.
      destruct r1 as [| a [| b [| c1 [| d r']]]];
        repeat match type of E4 with
               | context [hex_val ?x] => destruct (hex_val x)
               end; discriminate.
  - destruct (code c <? 32)%N; [exact I |].
    destruct (code c <? 128)%N; [apply step; cbn; lia |].
    destruct (Utf8.rune_width (String c r)) as [n |] eqn:W; [| apply step; cbn; lia].
    apply rune_width_bounds in W. pose proof (drop_length n (String c r)) as D.
    apply step. lia.
Qed.

Lemma scan_member_shrinks (value : string -> Scan JSON) fuel s :
  (String.length s < fuel)%nat ->
  (forall s', (String.length s' < String.length s)%nat ->
              shrinks (String.length s') (value s')) ->
  shrinks (String.length s) (scan_member value fuel s).
Proof.
  intros Hf Hv. unfold scan_member.
  destruct (skip_space s) as [| c r] eqn:Es; [exact I |].
  apply skip_space_cons in Es.
  destruct (Ascii.eqb c quote); [| exact I].
  eapply shrinks_bind; [apply scan_string_shrinks; lia |].
  intros key r1 L1. cbn beta.
  destruct (skip_space r1) as [| c1 r2] eqn:E1; [exact I |].
  apply skip_space_cons in E1.
  destruct (Ascii.eqb c1 ":"); [| exact I].
  apply shrinks_map. eapply shrinks_weaken; [apply Hv |]; lia.
Qed.

(** With more fuel than bytes, scanning a value, the rest of an object or
    the rest of an array ends, and has consumed at least one byte if it
    succeeds. *)
Lemma scan_value_shrinks fuel :
  forall depth s, (String.length s < fuel)%nat ->
    shrinks (String.length s) (scan_value fuel depth s)
    /\ shrinks (String.length s) (scan_members fuel depth s)
    /\ shrinks (String.length s) (scan_elems fuel depth s).
Proof.
  induction fuel as [| fuel IH]; intros depth s Hf; [lia |].
  assert (IHv : forall d s', (String.length s' < fuel)%nat ->
                  shrinks (String.length s') (scan_value fuel d s'))
    by (intros; apply IH; assumption).
  assert (IHm : forall d s', (String.length s' < fuel)%nat ->
                  shrinks (String.length s') (scan_members fuel d s'))
    by (intros; apply IH; assumption).
  assert (IHe : forall d s', (String.length s' < fuel)%nat ->
                  shrinks (String.length s') (scan_elems fuel d s'))
    by (intros; apply IH; assumption).
  clear IH.
  split; [| split].
  - cbn [scan_value].
    destruct (skip_space s) as [| c r] eqn:Es; [exact I |].
    apply skip_space_cons in Es.
    destruct (Ascii.eqb c "{").
    { destruct (maxNestingDepth <? depth + 1)%N; [exact I |].
      destruct (skip_space r) as [| c1 r1] eqn:E1; [exact I |].
      apply skip_space_cons in E1.
      destruct (Ascii.eqb c1 "}"); [cbn; lia |].
      eapply shrinks_bind.
      - apply scan_member_shrinks; [lia |]. intros s' L. apply IHv. lia.
      - intros m r2 L2. cbn beta. apply shrinks_map.
        eapply shrinks_weaken; [apply IHm |]; lia. }
    destruct (Ascii.eqb c "[").
    { destruct (maxNestingDepth <? depth + 1)%N; [exact I |].
      destruct (skip_space r) as [| c1 r1] eqn:E1; [exact I |].
      apply skip_space_cons in E1.
      destruct (Ascii.eqb c1 "]"); [cbn; lia |].
      eapply shrinks_bind.
      - apply IHv. lia.
      - intros v r2 L2. cbn beta. apply shrinks_map.
        eapply shrinks_weaken; [apply IHe |]; lia. }
    destruct (Ascii.eqb c quote).
    { apply shrinks_map. eapply shrinks_weaken; [apply scan_string_shrinks |]; lia. }
    assert (num : forall st, shrinks (String.length s)
                     (scan_map (fun l => JNum (String c l)) (scan_number st r))).
    { intros st. apply shrinks_map.
      eapply shrinks_weaken; [apply scan_number_shrinks |]. lia. }
    assert (lit : forall (v : JSON) name expect, shrinks (String.length s)
                     (scan_map (fun _ => v) (scan_literal name expect r))).
    { intros v name expect. apply shrinks_map.
      eapply shrinks_weaken; [apply scan_literal_shrinks |]. lia. }
    destruct (Ascii.eqb c "-"); [apply num |].
    destruct (Ascii.eqb c "0"); [apply num |].
    destruct (is_digit c); [apply num |].
    destruct (Ascii.eqb c "t"); [apply lit |].
    destruct (Ascii.eqb c "f"); [apply lit |].
    destruct (Ascii.eqb c "n"); [apply lit |].
    exact I.
  - cbn [scan_members].
    destruct (skip_space s) as [| c r] eqn:Es; [exact I |].
    apply skip_space_cons in Es.
    destruct (Ascii.eqb c "}"); [cbn; lia |].
    destruct (Ascii.eqb c ","); [| exact I].
    eapply shrinks_bind.
    + apply scan_member_shrinks; [lia |]. intros s' L. apply IHv. lia.
    + intros m r2 L2. cbn beta. apply shrinks_map.
      eapply shrinks_weaken; [apply IHm |]; lia.
  - cbn [scan_elems].
    destruct (skip_space s) as [| c r] eqn:Es; [exact I |].
    apply skip_space_cons in Es.
    destruct (Ascii.eqb c "]"); [cbn; lia |].
    destruct (Ascii.eqb c ","); [| exact I].
    eapply shrinks_bind.
    + apply IHv. lia.
    + intros v r2 L2. cbn beta. apply shrinks_map.
      eapply shrinks_weaken; [apply IHe |]; lia.
Qed.

(** The fuel [readValue] gives the scanner is enough: its last case is dead. *)
Lemma readValue_never_starves (body : string) :
  scan_value (S (String.length body)) 0 body <> Starved.
Proof.
  pose proof (scan_value_shrinks (S (String.length body)) 0%N body) as [H _]; [lia |].
  intros E. rewrite E in H. exact H.
Qed.

(** ** What [Decode] fails with *)

(** Only [io.EOF] prints as [EOF]. *)
Lemma Error_EOF_iff (e : DecodeError) : Json.Error e = "EOF" <-> e = EOF.
Proof.
  split; [| intros ->; reflexivity].
  destruct e as [| [c ctx |] | v st f t]; cbn; try reflexivity; try discriminate.
  destruct (String.eqb st "" && String.eqb f "")%bool; discriminate.
Qed.

(** [readValue] is [io.EOF] exactly on the bodies without a non-space byte. *)
Lemma readValue_EOF_iff (body : string) :
  readValue body = inl EOF <-> nonSpace body = false.
Proof.
  unfold readValue. destruct (nonSpace body).
  - split; [| discriminate].
    destruct (scan_value _ _ _); discriminate.
  - split; reflexivity.
Qed.

(** The stores of the service fail with type errors only. *)
Lemma store_string_type_errors s f : type_errors_only (store_string s f).
Proof.
  intros v a a' e H. unfold store_string in H.
  destruct v; inversion H; discriminate.
Qed.

Lemma store_int_type_errors t s f : type_errors_only (store_int t s f).
Proof.
  intros v a a' e H. unfold store_int in H.
  destruct v; try (inversion H; discriminate).
  destruct (ParseInt lit); inversion H; discriminate.
Qed.

Lemma into_field_type_errors {A B} (get : A -> B) set (st : Store B) :
  type_errors_only st -> type_errors_only (into_field get set st).
Proof.
  intros Hst v a a' e H. unfold into_field in H.
  destruct (st v (get a)) as [b o] eqn:E. cbn in H. inversion H; subst.
  eapply Hst; eauto.
Qed.

Lemma object_type_errors {A} (fields : list (FieldSpec A)) :
  Forall (fun f => type_errors_only (store f)) fields ->
  forall ms a a' e, object fields ms a = (a', Some e) -> e <> EOF.
Proof.
  intros Hf ms a a' e. unfold object.
  assert (G : forall acc, (forall e0, snd acc = Some e0 -> e0 <> EOF) ->
              forall r, fold_left
                (fun (acc : A * option DecodeError) (m : string * JSON) =>
                   match field_for fields (fst m) with
                   | None => acc
                   | Some f =>
                     let r := store f (snd m) (fst acc) in
                     (fst r, saveError (snd acc) (snd r))
                   end) ms acc = r ->
              forall e0, snd r = Some e0 -> e0 <> EOF).
  { induction ms as [| m ms IH]; intros acc Hacc r Hr e0 He0.
    - cbn in Hr. subst. auto.
    - cbn in Hr. eapply IH; [| exact Hr | exact He0].
      destruct (field_for fields (fst m)) as [f |] eqn:Ef; [| exact Hacc].
      intros e1 He1. cbn in He1.
      destruct (snd acc) as [ea |] eqn:Ea; cbn in He1.
      + inversion He1; subst. auto.
      + assert (In f fields).
        { unfold field_for in Ef.
          destruct (find _ fields) eqn:F1.
          - inversion Ef; subst. eapply find_some; eauto.
          - eapply find_some; eauto. }
        rewrite Forall_forall in Hf.
        destruct (store f (snd m) (fst acc)) as [x o] eqn:Es. cbn in He1. subst.
        eapply Hf; eauto. }
  intros H. eapply (G (a, None)); [discriminate | exact H | reflexivity].
Qed.

Lemma store_struct_type_errors {A} t s f (fields : list (FieldSpec A)) :
  Forall (fun f => type_errors_only (store f)) fields ->
  type_errors_only (store_struct t s f fields).
Proof.
  intros Hf v a a' e H. unfold store_struct in H.
  destruct v; try (inversion H; discriminate).
  eapply object_type_errors; eauto.
Qed.

Lemma store_URL_type_errors : type_errors_only store_URL.
Proof.
  apply store_struct_type_errors.
  repeat constructor; cbn; apply into_field_type_errors, store_string_type_errors.
Qed.

(** [Decode] is [io.EOF] exactly on the bodies without a non-space byte. *)
Lemma Decode_EOF_iff {A} (st : Store A) body a :
  type_errors_only st ->
  (Decode st body a = inl EOF <-> nonSpace body = false).
Proof.
  intros Hst. unfold Decode. rewrite <- readValue_EOF_iff.
  destruct (readValue body) as [e | [v rest]].
  - split; congruence.
  - split; [| discriminate].
    destruct (st v a) as [a' [e |]] eqn:E; [| discriminate].
    intros H. inversion H; subst. exfalso. eapply Hst; eauto.
Qed.

(** ** The handlers, case by case *)


(** [addURL] on another content type. *)
Lemma addURL_wrong_type (r : Request) (s : State) :
  Header_Get (Header_ r) "Content-Type" <> "application/json" ->
  addURL r s = http_Error "Content-Type must be application/json" StatusBadRequest s.
Proof.
  intros H. unfold addURL.
  destruct (String.eqb_spec (Header_Get (Header_ r) "Content-Type") "application/json");
    [contradiction | reflexivity].
Qed.

(** [addURL] on [application/json], by what the body decodes to and what
    the database does. *)
Lemma addURL_right_type (r : Request) (s : State) :
  Header_Get (Header_ r) "Content-Type" = "application/json" ->
  addURL r s =
  match Json.Decode store_URL (Body r) (mkURL "" "") with
  | inl err =>
    if String.eqb (Json.Error err) "EOF" then
      http_Error "Empty request body" StatusBadRequest s
    else http_Error "Invalid request payload" StatusBadRequest s
  | inr url =>
    let id := uuid_New (env s) (clock s) in
    match db_fault (env s) (S (clock s)) with
    | Some _ =>
      http_Error "Error adding URL to database" StatusInternalServerError
                 (with_clock s (S (S (clock s))))
    | None =>
      match insert_refused (urls s) id (URL_URL url) with
      | Some _ =>
        http_Error "Error adding URL to database" StatusInternalServerError
                   (with_clock s (S (S (clock s))))
      | None =>
        Return tt
          (mkState (urls s ++ [mkURL id (URL_URL url)])%list (env s) (S (S (clock s)))
                   (sent s) (stdout s)
                   (Write (WriteHeader (w s) StatusCreated)
                          (Document (encode_URL (mkURL id (URL_URL url))))))
      end
    end
  end.
Proof.
  intros H. unfold addURL. rewrite H. cbn [String.eqb negb].
  change (String.eqb "application/json" "application/json") with true. cbn [negb].
  destruct (Json.Decode store_URL (Body r) (mkURL "" "")) as [err | url].
  - destruct (String.eqb (Json.Error err) "EOF"); reflexivity.
  - unfold bind, uuid_New_String, db_Exec, bind, db_run. cbn.
    destruct (db_fault (env s) (S (clock s))); [reflexivity |].
    destruct (insert_refused _ _ _); reflexivity.
Qed.

(** The loop over the rows of the table: no [Scan] fails, and the slice stays
    [nil] when there is no row. *)
Lemma scan_rows_table (table : list URL) (acc : Slice URL) :
  scan_rows (map row_of table) acc =
  inr (match table with [] => acc | _ => Some (elems acc ++ table)%list end).
Proof.
  revert acc. induction table as [| u t IH]; intros acc; [reflexivity |].
  cbn [map scan_rows row_of Rows_Scan_URL assign_string]. rewrite IH.
  destruct u as [i x]. cbn.
  destruct acc as [l |]; destruct t; cbn; try reflexivity.
  - rewrite <- app_assoc. reflexivity.
Qed.

(** [getURLs] when the query is answered. *)
Lemma getURLs_answered (r : Request) (s : State) :
  db_fault (env s) (clock s) = None ->
  getURLs r s =
  Return tt
    (mkState (urls s) (env s) (S (clock s)) (sent s) (stdout s)
       (Write (set_header (w s) "Content-Type" "application/json")
          (Document (encode_slice encode_URL
                       (match urls s with [] => None | l => Some l end))))).
Proof.
  intros H. unfold getURLs, bind, db_Query, db_run. rewrite H. cbn [execute].
  rewrite scan_rows_table. cbn.
  destruct (urls s); reflexivity.
Qed.

(** [getURLs] when the query fails. *)
Lemma getURLs_fault (r : Request) (s : State) e :
  db_fault (env s) (clock s) = Some e ->
  getURLs r s =
  http_Error "Error retrieving URLs from database" StatusInternalServerError
             (with_clock s (S (clock s))).
Proof.
  intros H. unfold getURLs, bind, db_Query, db_run. rewrite H. reflexivity.
Qed.

(** [clearURLs] on a method other than [GET]. *)
Lemma clearURLs_other_method (r : Request) (s : State) :
  Method r <> "GET" ->
  clearURLs r s =
  http_Error "Invalid method. Only GET is allowed" StatusMethodNotAllowed s.
Proof.
  intros H. unfold clearURLs, MethodGet.
  destruct (String.eqb_spec (Method r) "GET"); [contradiction | reflexivity].
Qed.

(** [clearURLs] on [GET]. *)
Lemma clearURLs_GET (r : Request) (s : State) :
  Method r = "GET" ->
  clearURLs r s =
  match db_fault (env s) (clock s) with
  | Some _ =>
    http_Error "Error clearing URLs from database" StatusInternalServerError
               (with_clock s (S (clock s)))
  | None =>
    Return tt
      (mkState [] (env s) (S (clock s)) (sent s) (stdout s)
         (Fprintln (WriteHeader (w s) StatusOK)
                   "All URLs have been removed from the database."))
  end.
Proof.
  intros H. unfold clearURLs, MethodGet. rewrite H.
  change (String.eqb "GET" "GET") with true. cbn [negb].
  unfold bind, db_Exec, bind, db_run.
  destruct (db_fault (env s) (clock s)); reflexivity.
Qed.

(** No wrap-around within the range of [int]. *)
Lemma wrap_small (z : Z) : int_min <= z <= int_max -> wrap z = z.
Proof.
  unfold int_min, int_max, wrap. intros H.
  rewrite Z.mod_small; lia.
Qed.

(** [randomIndex - 1] is the number drawn. *)
Lemma offset_is_draw (n count : Z) :
  0 <= n < count -> count <= int_max -> Go.sub (Go.add n 1) 1 = n.
Proof.
  unfold Go.sub, Go.add, int_max. intros H1 H2.
  rewrite (wrap_small (n + 1)) by (unfold int_min, int_max; lia).
  replace (n + 1 - 1) with n by lia.
  apply wrap_small. unfold int_min, int_max. lia.
Qed.

(** [getRandomURL] when the count query fails. *)
Lemma getRandomURL_count_fault (s : State) e :
  db_fault (env s) (clock s) = Some e ->
  getRandomURL s =
  Return ("", Some ("error getting URL count: " ++ e)) (with_clock s (S (clock s))).
Proof.
  intros H. unfold getRandomURL, bind, db_QueryRow, db_run. rewrite H. reflexivity.
Qed.

(** [getRandomURL] on an empty table. *)
Lemma getRandomURL_empty (s : State) :
  db_fault (env s) (clock s) = None ->
  urls s = [] ->
  getRandomURL s =
  Return ("", Some "no URLs found in the database") (with_clock s (S (clock s))).
Proof.
  intros H E. unfold getRandomURL, bind, db_QueryRow, db_run. rewrite H.
  cbn [execute]. rewrite E. cbn. destruct s; cbn in *; subst; reflexivity.
Qed.

(** [getRandomURL] on a table with rows. *)
Lemma getRandomURL_nonempty (s : State) :
  db_fault (env s) (clock s) = None ->
  1 <= row_count s <= int_max ->
  let offset := rand_draw (env s) (S (clock s)) mod row_count s in
  getRandomURL s =
  match db_fault (env s) (S (S (clock s))) with
  | Some e =>
    Return ("", Some ("error retrieving random URL: " ++ e))
           (with_clock s (S (S (S (clock s)))))
  | None =>
    match nth_error (urls s) (Z.to_nat offset) with
    | Some u => Return (URL_URL u, None) (with_clock s (S (S (S (clock s)))))
    | None =>
      Return ("", Some ("error retrieving random URL: " ++ ErrNoRows))
             (with_clock s (S (S (S (clock s)))))
    end
  end.
Proof.
  intros H Hc offset. unfold row_count in *.
  assert (Hoff : 0 <= offset < Z.of_nat (List.length (urls s)))
    by (apply Z.mod_pos_bound; lia).
  unfold getRandomURL, bind, db_QueryRow, db_run. rewrite H.
  cbn [execute Row_Scan assign_int].
  assert (Hin : in_int (Z.of_nat (List.length (urls s))) = true).
  { unfold in_int, int_min, int_max in *. apply andb_true_intro. split; apply Z.leb_le; lia. }
  rewrite Hin.
  destruct (Z.eqb_spec (Z.of_nat (List.length (urls s))) 0) as [E0 | _]; [lia |].
  unfold rand_Intn.
  destruct (Z.leb_spec (Z.of_nat (List.length (urls s))) 0) as [E0 | _]; [lia |].
  cbn [clock with_clock with_urls env urls sent stdout w].
  fold offset.
  rewrite (offset_is_draw offset (Z.of_nat (List.length (urls s)))) by lia.
  destruct (db_fault (env s) (S (S (clock s)))); [reflexivity |].
  cbn [execute].
  destruct (Z.ltb_spec offset 0) as [E0 | _]; [lia |].
  destruct (nth_error (urls s) (Z.to_nat offset)) as [u |]; destruct s; reflexivity.
Qed.

(** [getRandomURL] returns, and changes nothing but the clock. *)
Lemma getRandomURL_frame (s : State) :
  exists x n, getRandomURL s = Return x (with_clock s n).
Proof.
  unfold getRandomURL, bind, db_QueryRow, db_run.
  destruct (db_fault (env s) (clock s)) as [e |].
  - cbn. eauto.
  - cbn [execute Row_Scan assign_int].
    destruct (in_int _) eqn:Hin.
    + destruct (Z.eqb_spec (Z.of_nat (List.length (urls s))) 0) as [E0 | N0].
      * exists ("", Some "no URLs found in the database"), (S (clock s)).
        destruct s; reflexivity.
      * unfold rand_Intn.
        destruct (Z.leb_spec (Z.of_nat (List.length (urls s))) 0) as [E0 | _]; [lia |].
        cbn [clock with_clock with_urls env urls sent stdout w].
        destruct (db_fault (env s) (S (S (clock s)))) as [e |].
        -- cbn. eexists _, _. destruct s; reflexivity.
        -- cbn [execute].
           destruct (Go.sub _ _ <? 0).
           ++ cbn. eexists _, _. destruct s; reflexivity.
           ++ destruct (Row_Scan assign_string _); eexists _, _; destruct s; reflexivity.
    + cbn. eexists _, _. destruct s; reflexivity.
Qed.

(** [getVideoInfo] when the response arrives and decodes. *)
Lemma getVideoInfo_decoded (url : string) (s : State) (body : string) (videoInfo : VideoInfo) :
  NewRequest_error (env s) (api_url url) = None ->
  RoundTrip (env s) (clock s) (api_request url) = inr body ->
  Json.Decode store_VideoInfo body zero_VideoInfo = inr videoInfo ->
  getVideoInfo url s =
  Return (if Code videoInfo =? 0 then (Some videoInfo, None)
          else (None, Some ("API error: " ++ Msg videoInfo)))
         (with_sent (with_clock s (S (clock s))) (sent s ++ [api_request url])%list).
Proof.
  intros Hreq Hdo Hdec. unfold getVideoInfo, bind, http_NewRequest, client_Do.
  rewrite Hreq. change (req_Header_Set _ _ _) with (api_request url).
  rewrite Hdo, Hdec.
  destruct (Code videoInfo =? 0); reflexivity.
Qed.

(** [getVideoData], step by step. *)
Lemma getVideoData_steps (r : Request) (s : State) :
  getVideoData r s =
  match getRandomURL s with
  | Panic msg s1 => Panic msg s1
  | Return (_, Some err) s1 =>
    http_Error ("Error fetching random URL: " ++ err) StatusInternalServerError s1
  | Return (randomURL, None) s1 =>
    match (Println ("Fetching video for URL: " ++ randomURL) ;; getVideoInfo randomURL) s1 with
    | Panic msg s2 => Panic msg s2
    | Return (_, Some err) s2 =>
      http_Error ("Error fetching video: " ++ err) StatusInternalServerError s2
    | Return (None, None) s2 =>
      Panic "invalid memory address or nil pointer dereference" s2
    | Return (Some videoInfo, None) s2 =>
      Return tt
        (with_w s2
           (Write (set_header (w s2) "Content-Type" "application/json")
                  (Document (encode_VideoDataResponse (responseData videoInfo)))))
    end
  end.
Proof.
  unfold getVideoData, bind.
  destruct (getRandomURL s) as [[u [e |]] s1 | m s1]; try reflexivity.
  cbn [Println].
  destruct (getVideoInfo u _) as [[[vi |] [e |]] s2 | m s2]; reflexivity.
Qed.

(** [getVideoInfo] returns, and changes nothing but the clock and the log of
    requests. *)
Lemma getVideoInfo_frame (url : string) (s : State) :
  exists x n l, getVideoInfo url s = Return x (with_sent (with_clock s n) l).
Proof.
  unfold getVideoInfo, bind, http_NewRequest, client_Do.
  destruct (NewRequest_error (env s) (api_url url)).
  - exists (None, Some (Errorf "error creating request" s0)), (clock s), (sent s).
    destruct s; reflexivity.
  - change (req_Header_Set _ _ _) with (api_request url).
    destruct (RoundTrip (env s) (clock s) (api_request url)) as [e | body];
      [eexists _, _, _; reflexivity |].
    destruct (Json.Decode store_VideoInfo body zero_VideoInfo) as [e | vi];
      [eexists _, _, _; reflexivity |].
    destruct (negb (Code vi =? 0)); eexists _, _, _; reflexivity.
Qed.

(** The members of the document [getVideoData] encodes. *)
Lemma responseData_document (videoInfo : VideoInfo) :
  let data := Data videoInfo in
  let doc := encode_VideoDataResponse (responseData videoInfo) in
  path ["data"; "url"] doc
  = Some (JStr ("https://www.tikwm.com/video/media/hdplay/" ++ ID data ++ ".mp4"))
  /\ path ["data"; "duration"] doc = Some (JStr (itoa (Duration data) ++ "s"))
  /\ path ["data"; "region"] doc = Some (JStr (Region data))
  /\ path ["data"; "cover"] doc = Some (JStr (Cover data))
  /\ path ["data"; "title"] doc = Some (JStr (Title data))
  /\ path ["data"; "user"; "username"] doc = Some (JStr (UniqueID (Author data)))
  /\ path ["data"; "user"; "nickname"] doc = Some (JStr (Nickname (Author data)))
  /\ path ["data"; "user"; "userID"] doc = Some (JStr (Author_ID (Author data))).
Proof. repeat split. Qed.

(** * The claims *)

(** ** Normalization (C1) *)

(** C1. Whenever the pick returns a URL and the client returns a
    [VideoInfo], [GET /get] answers [200] with one JSON document whose
    [data.url] is the fixed base path, the identifier and [.mp4], whose
    [data.duration] is the decimal rendering of the duration followed by
    [s], and whose [data.region], [data.cover], [data.title],
    [data.user.username], [data.user.nickname] and [data.user.userID] are
    the region, cover, title and the author's [unique_id], [nickname] and
    [id].  (For [id = abc], [duration = 30], [unique_id = u1]: [abc.mp4],
    [30s], [u1], as run below.) *)
Theorem getVideoData_normalizes
        (r : Request) (s s1 s2 : State) (randomURL : string) (videoInfo : VideoInfo) :
  getRandomURL (with_w s Http.fresh) = Return (randomURL, None) s1 ->
  (Println ("Fetching video for URL: " ++ randomURL) ;; getVideoInfo randomURL) s1
  = Return (Some videoInfo, None) s2 ->
  let data := Data videoInfo in
  exists doc,
    serve getVideoData r s
    = Return tt (with_w s2 (mkResponseWriter [("Content-Type", ["application/json"])]
                                            (Some 200) [Document doc]))
    /\ path ["data"; "url"] doc
       = Some (JStr ("https://www.tikwm.com/video/media/hdplay/" ++ ID data ++ ".mp4"))
    /\ path ["data"; "duration"] doc = Some (JStr (itoa (Duration data) ++ "s"))
    /\ path ["data"; "region"] doc = Some (JStr (Region data))
    /\ path ["data"; "cover"] doc = Some (JStr (Cover data))
    /\ path ["data"; "title"] doc = Some (JStr (Title data))
    /\ path ["data"; "user"; "username"] doc = Some (JStr (UniqueID (Author data)))
    /\ path ["data"; "user"; "nickname"] doc = Some (JStr (Nickname (Author data)))
    /\ path ["data"; "user"; "userID"] doc = Some (JStr (Author_ID (Author data))).
Proof.
  intros Hpick Hfetch data.
  exists (encode_VideoDataResponse (responseData videoInfo)).
  split; [| apply responseData_document].
  unfold serve. rewrite getVideoData_steps, Hpick, Hfetch.
  destruct (getRandomURL_frame (with_w s Http.fresh)) as (x & n & E).
  rewrite Hpick in E. injection E as _ ->.
  unfold bind, Println in Hfetch.
  match type of Hfetch with getVideoInfo _ ?st = _ =>
    destruct (getVideoInfo_frame randomURL st) as (y & m & l & E') end.
  rewrite Hfetch in E'. injection E' as _ ->.
  reflexivity.
Qed.

Lemma getVideoData_normalizes_witness :
  exists doc,
    body (response (serve getVideoData Fixture.get
                          (Fixture.boot (Fixture.calm Fixture.remote_video)
                                        [mkURL (Fixture.uuid_of 1) "https://vt.tiktok.com/ZS1/"])))
    = [Document doc]
    /\ path ["data"; "url"] doc
       = Some (JStr "https://www.tikwm.com/video/media/hdplay/abc.mp4")
    /\ path ["data"; "duration"] doc = Some (JStr "30s")
    /\ path ["data"; "user"; "username"] doc = Some (JStr "u1").
Proof.
  destruct (getVideoData_normalizes Fixture.get
              (Fixture.boot (Fixture.calm Fixture.remote_video)
                            [mkURL (Fixture.uuid_of 1) "https://vt.tiktok.com/ZS1/"])
              _ _ _ _ eq_refl eq_refl)
    as (doc & Hrun & Hurl & Hdur & _ & _ & _ & Huser & _).
  exists doc. rewrite Hrun. repeat split; assumption.
Defined.

(** ** The empty store (C2) *)

(** C2. On a store with zero rows [GET /get] answers [500] and the HTTP
    client sends nothing; when the database answers the count query,
    [getRandomURL] returns the error [no URLs found in the database] and
    the body of the response carries it. *)
Theorem getVideoData_empty_store (r : Request) (s : State) :
  urls s = [] ->
  let res := serve getVideoData r s in
  sent (final_state res) = sent s
  /\ status (response res) = Some StatusInternalServerError
  /\ (db_fault (env s) (clock s) = None ->
      getRandomURL (with_w s Http.fresh)
      = Return ("", Some "no URLs found in the database")
               (with_clock (with_w s Http.fresh) (S (clock s)))
      /\ body (response res)
         = [Text ("Error fetching random URL: no URLs found in the database" ++ newline)]).
Proof.
  intros E res. subst res. unfold serve. rewrite getVideoData_steps.
  destruct (db_fault (env s) (clock s)) as [e |] eqn:F.
  - rewrite (getRandomURL_count_fault (with_w s Http.fresh) e F).
    split; [reflexivity | split; [reflexivity | discriminate]].
  - rewrite (getRandomURL_empty (with_w s Http.fresh) F E).
    split; [reflexivity | split; [reflexivity | intros _; split; reflexivity]].
Qed.

Lemma getVideoData_empty_store_witness :
  let s := Fixture.boot (Fixture.calm Fixture.remote_video) [] in
  sent (final_state (serve getVideoData Fixture.get s)) = []
  /\ status (response (serve getVideoData Fixture.get s)) = Some 500
  /\ body (response (serve getVideoData Fixture.get s))
     = [Text ("Error fetching random URL: no URLs found in the database" ++ newline)].
Proof.
  intros s.
  destruct (getVideoData_empty_store Fixture.get s eq_refl) as (Hsent & Hstatus & Hmsg).
  destruct (Hmsg eq_refl) as [_ Hbody].
  repeat split; assumption.
Defined.

(** With the database unreachable the same request is refused with the
    driver's error instead, and still nothing is sent. *)
Example getVideoData_database_down :
  let res := serve getVideoData Fixture.get
                   (Fixture.boot (Fixture.db_down Fixture.remote_video) []) in
  response res
  = mkResponseWriter
      [("Content-Type", ["text/plain; charset=utf-8"]);
       ("X-Content-Type-Options", ["nosniff"])]
      (Some 500)
      [Text ("Error fetching random URL: error getting URL count: dial tcp: connection refused"
               ++ newline)]
  /\ sent (final_state res) = [].
Proof. split; reflexivity. Qed.

(** ** Listing (C3) *)

(** C3. On a store with zero rows and a reachable database, [getURLs]
    answers [200] with the JSON value [null], which is not the empty
    array: the slice the rows are appended to is still [nil] when it is
    encoded. *)
Theorem getURLs_empty_store_encodes_null (r : Request) (s : State) :
  urls s = [] ->
  db_fault (env s) (clock s) = None ->
  response (serve getURLs r s)
  = mkResponseWriter [("Content-Type", ["application/json"])] (Some StatusOK) [Document JNull]
  /\ JNull <> JArr [].
Proof.
  intros E F. split; [| discriminate].
  unfold serve, response. rewrite getURLs_answered by exact F.
  cbn [urls env clock with_w w final_state]. rewrite E. reflexivity.
Qed.

(** [GET /clr] followed by [GET /list], on a store of three rows. *)
Lemma getURLs_empty_store_encodes_null_witness :
  let s := final_state (serve clearURLs Fixture.get
                              (Fixture.boot (Fixture.calm "") Fixture.three_rows)) in
  body (response (serve getURLs Fixture.get s)) = [Document JNull].
Proof.
  intros s.
  destruct (getURLs_empty_store_encodes_null Fixture.get s eq_refl eq_refl) as [H _].
  rewrite H. reflexivity.
Defined.

(** On a store that holds rows, the body is the array of the rows. *)
Lemma getURLs_lists_rows (r : Request) (s : State) :
  db_fault (env s) (clock s) = None ->
  urls s <> [] ->
  response (serve getURLs r s)
  = mkResponseWriter [("Content-Type", ["application/json"])] (Some StatusOK)
                     [Document (JArr (map encode_URL (urls s)))].
Proof.
  intros F N. unfold serve. rewrite getURLs_answered by exact F.
  cbn. destruct (urls s); [contradiction | reflexivity].
Qed.

(** ** The random pick (C4) *)

(** C4. With [count >= 1] rows (a count that fits an [int]) and whatever
    [rand.Intn(count)] returns, the offset [randomIndex - 1] lies in
    [[0, count)], a row sits at that offset, and when both queries are
    answered [getRandomURL] returns the [url] of that row. *)
Theorem getRandomURL_offset_in_range (s s' : State) (n : Z) :
  1 <= row_count s <= int_max ->
  rand_Intn (row_count s) (with_clock s (S (clock s))) = Return n s' ->
  let randomIndex := Go.add n 1 in
  let offset := Go.sub randomIndex 1 in
  0 <= offset < row_count s
  /\ exists u,
      nth_error (urls s) (Z.to_nat offset) = Some u
      /\ (db_fault (env s) (clock s) = None ->
          db_fault (env s) (S (S (clock s))) = None ->
          getRandomURL s = Return (URL_URL u, None) (with_clock s (S (S (S (clock s)))))).
Proof.
  intros Hc Hn randomIndex offset.
  unfold rand_Intn in Hn.
  destruct (Z.leb_spec (row_count s) 0) as [E0 | _]; [lia |].
  injection Hn as Hn _. cbn in Hn.
  assert (Hb : 0 <= n < row_count s) by (subst n; apply Z.mod_pos_bound; lia).
  assert (Ho : offset = n) by (apply (offset_is_draw n (row_count s)); lia).
  rewrite Ho. split; [exact Hb |].
  destruct (nth_error (urls s) (Z.to_nat n)) as [u |] eqn:Hu.
  - exists u. split; [reflexivity |]. intros F1 F2.
    rewrite (getRandomURL_nonempty s F1 Hc). cbn zeta. rewrite F2, Hn, Hu. reflexivity.
  - exfalso. apply nth_error_None in Hu. unfold row_count in Hb. lia.
Qed.

Lemma getRandomURL_offset_in_range_witness :
  let s := Fixture.boot (Fixture.calm Fixture.remote_video) Fixture.three_rows in
  0 <= 1 < 3
  /\ getRandomURL s
     = Return ("https://vt.tiktok.com/ZS2/", None) (with_clock s 3).
Proof.
  intros s.
  assert (Hc : 1 <= row_count s <= int_max) by (vm_compute; split; discriminate).
  destruct (getRandomURL_offset_in_range s (with_clock s 2) 1 Hc eq_refl)
    as (Hb & u & Hu & Hrun).
  split; [exact Hb |].
  rewrite (Hrun eq_refl eq_refl).
  injection Hu as <-. reflexivity.
Defined.

(** ** Stored URLs are not checked (C5) *)

(** C5 as stated fails: non-emptiness of every stored [url] is not
    preserved by [POST /new]; the body with an empty [url] member adds a
    row whose [url] is the empty string. *)
Lemma addURL_empty_url_counterexample :
  ~ (forall (r : Request) (s : State),
        Forall (fun u => URL_URL u <> "") (urls s) ->
        Forall (fun u => URL_URL u <> "") (urls (final_state (serve addURL r s)))).
Proof.
  intros H.
  specialize (H (Fixture.post (Fixture.json "{'url':''}"))
                (Fixture.boot (Fixture.calm "") []) (Forall_nil _)).
  vm_compute in H. inversion H as [| u l Hu _]; subst. apply Hu. reflexivity.
Qed.

(** C5, amended. [POST /new] stores the string its body decodes to, as it
    is and without any check, and the body with an empty [url] member
    decodes to the empty string: a stored [url] is an arbitrary string,
    possibly empty. *)
Theorem addURL_stores_any_string (r : Request) (s : State) (url : URL) :
  Header_Get (Header_ r) "Content-Type" = "application/json" ->
  Json.Decode store_URL (Body r) (mkURL "" "") = inr url ->
  db_fault (env s) (S (clock s)) = None ->
  insert_refused (urls s) (uuid_New (env s) (clock s)) (URL_URL url) = None ->
  urls (final_state (serve addURL r s))
  = (urls s ++ [mkURL (uuid_New (env s) (clock s)) (URL_URL url)])%list
  /\ Json.Decode store_URL (Fixture.json "{'url':''}") (mkURL "" "") = inr (mkURL "" "").
Proof.
  intros Hct Hdec Hdb Hins. split; [| reflexivity].
  unfold serve. rewrite (addURL_right_type r _ Hct), Hdec.
  cbn zeta. cbn [env clock urls with_w]. rewrite Hdb, Hins. reflexivity.
Qed.

Lemma addURL_stores_any_string_witness :
  urls (final_state (serve addURL (Fixture.post (Fixture.json "{'url':''}"))
                           (Fixture.boot (Fixture.calm "") Fixture.three_rows)))
  = (Fixture.three_rows ++ [mkURL (Fixture.uuid_of 0) ""])%list.
Proof.
  exact (proj1 (addURL_stores_any_string
                  (Fixture.post (Fixture.json "{'url':''}"))
                  (Fixture.boot (Fixture.calm "") Fixture.three_rows)
                  (mkURL "" "") eq_refl eq_refl eq_refl eq_refl)).
Defined.

(** ** The content type of [POST /new] (C6) *)

(** C6. A request whose [Content-Type] is not exactly [application/json]
    gets [400] with [Content-Type must be application/json]; the table is
    unchanged, nothing is drawn from or sent to the outside, and the
    outcome is the same for every body. *)
Theorem addURL_requires_json_content_type (r : Request) (s : State) :
  Header_Get (Header_ r) "Content-Type" <> "application/json" ->
  serve addURL r s
  = Return tt (with_w s (mkResponseWriter
                           [("Content-Type", ["text/plain; charset=utf-8"]);
                            ("X-Content-Type-Options", ["nosniff"])]
                           (Some StatusBadRequest)
                           [Text ("Content-Type must be application/json" ++ newline)]))
  /\ urls (final_state (serve addURL r s)) = urls s
  /\ clock (final_state (serve addURL r s)) = clock s
  /\ forall body', serve addURL (mkRequest (Method r) (Header_ r) body') s = serve addURL r s.
Proof.
  intros H. unfold serve.
  rewrite (addURL_wrong_type r _ H).
  split; [reflexivity | split; [reflexivity | split; [reflexivity |]]].
  intros body'. rewrite addURL_wrong_type by exact H. reflexivity.
Qed.

Lemma addURL_requires_json_content_type_witness :
  let r := mkRequest "POST" [("Content-Type", ["text/plain"])] (Fixture.json "{'url':'https://vt.tiktok.com/ZS9/'}") in
  let s := Fixture.boot (Fixture.calm "") Fixture.three_rows in
  status (response (serve addURL r s)) = Some 400
  /\ urls (final_state (serve addURL r s)) = Fixture.three_rows.
Proof.
  intros r s.
  assert (H : Header_Get (Header_ r) "Content-Type" <> "application/json")
    by (vm_compute; discriminate).
  destruct (addURL_requires_json_content_type r s H) as (Hrun & Hurls & _).
  split; [rewrite Hrun; reflexivity | exact Hurls].
Defined.

(** ** Bodies that do not decode (C7) *)

(** C7 as stated fails: a body that is not empty and does not decode need
    not get [Invalid request payload]; a body of one space gets
    [Empty request body]. *)
Lemma addURL_blank_body_counterexample :
  ~ (forall (r : Request) (s : State) (e : DecodeError),
        Header_Get (Header_ r) "Content-Type" = "application/json" ->
        Body r <> "" ->
        Json.Decode store_URL (Body r) (mkURL "" "") = inl e ->
        body (response (serve addURL r s)) = [Text ("Invalid request payload" ++ newline)]).
Proof.
  intros H.
  specialize (H (Fixture.post " ") (Fixture.boot (Fixture.calm "") []) EOF
                eq_refl).
  assert (B : Body (Fixture.post " ") <> "") by discriminate.
  specialize (H B eq_refl). vm_compute in H. discriminate H.
Qed.

(** C7, amended. With the right [Content-Type], a body that is empty or
    holds only JSON white space gets [400] with [Empty request body];
    every other body that fails to decode gets [400] with
    [Invalid request payload]; in both cases the table is unchanged. *)
Theorem addURL_decode_failures (r : Request) (s : State) :
  Header_Get (Header_ r) "Content-Type" = "application/json" ->
  let bad_request (msg : string) :=
      Return tt (with_w s (mkResponseWriter
                             [("Content-Type", ["text/plain; charset=utf-8"]);
                              ("X-Content-Type-Options", ["nosniff"])]
                             (Some StatusBadRequest) [Text (msg ++ newline)])) in
  (nonSpace (Body r) = false -> serve addURL r s = bad_request "Empty request body")
  /\ (forall e, nonSpace (Body r) = true ->
                Json.Decode store_URL (Body r) (mkURL "" "") = inl e ->
                serve addURL r s = bad_request "Invalid request payload")
  /\ (forall e, Json.Decode store_URL (Body r) (mkURL "" "") = inl e ->
                urls (final_state (serve addURL r s)) = urls s).
Proof.
  intros Hct bad_request. subst bad_request. unfold serve.
  rewrite (addURL_right_type r _ Hct).
  pose proof (Decode_EOF_iff store_URL (Body r) (mkURL "" "") store_URL_type_errors) as Hiff.
  split; [| split].
  - intros Hblank. apply Hiff in Hblank. rewrite Hblank. reflexivity.
  - intros e Hns Hdec. rewrite Hdec.
    destruct (String.eqb_spec (Json.Error e) "EOF") as [E | _]; [| reflexivity].
    apply Error_EOF_iff in E. subst e. apply Hiff in Hdec. congruence.
  - intros e Hdec. rewrite Hdec.
    destruct (String.eqb (Json.Error e) "EOF"); reflexivity.
Qed.

Lemma addURL_decode_failures_witness :
  let s := Fixture.boot (Fixture.calm "") Fixture.three_rows in
  body (response (serve addURL (Fixture.post "") s)) = [Text ("Empty request body" ++ newline)]
  /\ body (response (serve addURL (Fixture.post (Fixture.json "{'url':")) s))
     = [Text ("Invalid request payload" ++ newline)]
  /\ urls (final_state (serve addURL (Fixture.post (Fixture.json "{'url':")) s))
     = Fixture.three_rows.
Proof.
  intros s.
  destruct (addURL_decode_failures (Fixture.post "") s eq_refl) as (H1 & _ & _).
  destruct (addURL_decode_failures (Fixture.post (Fixture.json "{'url':")) s eq_refl)
    as (_ & H2 & H3).
  rewrite (H1 eq_refl), (H2 (Scanning UnexpectedEOF) eq_refl eq_refl).
  split; [reflexivity | split; [reflexivity |]].
  exact (H3 (Scanning UnexpectedEOF) eq_refl).
Defined.

(** ** Clearing (C8) *)

(** C8. A request to [/clr] whose method is not [GET] gets [405] and
    leaves the table as it is; a [GET] the database executes empties the
    table and gets [200] with a plain-text confirmation. *)
Theorem clearURLs_only_GET (r : Request) (s : State) :
  (Method r <> "GET" ->
   serve clearURLs r s
   = Return tt (with_w s (mkResponseWriter
                            [("Content-Type", ["text/plain; charset=utf-8"]);
                             ("X-Content-Type-Options", ["nosniff"])]
                            (Some StatusMethodNotAllowed)
                            [Text ("Invalid method. Only GET is allowed" ++ newline)]))
   /\ urls (final_state (serve clearURLs r s)) = urls s)
  /\ (Method r = "GET" ->
      db_fault (env s) (clock s) = None ->
      urls (final_state (serve clearURLs r s)) = []
      /\ response (serve clearURLs r s)
         = mkResponseWriter [] (Some StatusOK)
             [Text ("All URLs have been removed from the database." ++ newline)]).
Proof.
  unfold serve. split.
  - intros H. rewrite (clearURLs_other_method r _ H). split; reflexivity.
  - intros H F. rewrite (clearURLs_GET r _ H). cbn [env clock with_w].
    rewrite F. split; reflexivity.
Qed.

Lemma clearURLs_only_GET_witness :
  let s := Fixture.boot (Fixture.calm "") Fixture.three_rows in
  (status (response (serve clearURLs (Fixture.post "") s)) = Some 405
   /\ urls (final_state (serve clearURLs (Fixture.post "") s)) = Fixture.three_rows)
  /\ (urls (final_state (serve clearURLs Fixture.get s)) = []
      /\ status (response (serve clearURLs Fixture.get s)) = Some 200).
Proof.
  intros s.
  assert (N : Method (Fixture.post "") <> "GET") by discriminate.
  destruct (clearURLs_only_GET (Fixture.post "") s) as [H1 _].
  destruct (clearURLs_only_GET Fixture.get s) as [_ H2].
  destruct (H1 N) as [Hrun Hurls].
  destruct (H2 eq_refl eq_refl) as [Hempty Hresp].
  split; split; try assumption.
  - rewrite Hrun. reflexivity.
  - rewrite Hresp. reflexivity.
Defined.

(** ** The remote status code (C9) *)

(** C9. When the remote response decodes to a [VideoInfo] whose [code] is
    not zero, [getVideoInfo] returns no [VideoInfo] and the error
    [API error: ] followed by the remote [msg], and [GET /get] answers
    [500] with that message. *)
Theorem getVideoInfo_remote_error (url body : string) (videoInfo : VideoInfo) :
  Json.Decode store_VideoInfo body zero_VideoInfo = inr videoInfo ->
  Code videoInfo <> 0 ->
  (forall s : State,
      NewRequest_error (env s) (api_url url) = None ->
      RoundTrip (env s) (clock s) (api_request url) = inr body ->
      getVideoInfo url s
      = Return (None, Some ("API error: " ++ Msg videoInfo))
               (with_sent (with_clock s (S (clock s))) (sent s ++ [api_request url])))
  /\ (forall (r : Request) (s s1 : State),
         getRandomURL (with_w s Http.fresh) = Return (url, None) s1 ->
         NewRequest_error (env s1) (api_url url) = None ->
         RoundTrip (env s1) (clock s1) (api_request url) = inr body ->
         response (serve getVideoData r s)
         = mkResponseWriter
             [("Content-Type", ["text/plain; charset=utf-8"]);
              ("X-Content-Type-Options", ["nosniff"])]
             (Some StatusInternalServerError)
             [Text ("Error fetching video: API error: " ++ Msg videoInfo ++ newline)]).
Proof.
  intros Hdec Hcode.
  assert (Hinfo : forall s : State,
            NewRequest_error (env s) (api_url url) = None ->
            RoundTrip (env s) (clock s) (api_request url) = inr body ->
            getVideoInfo url s
            = Return (None, Some ("API error: " ++ Msg videoInfo))
                     (with_sent (with_clock s (S (clock s))) (sent s ++ [api_request url]))).
  { intros s Hreq Hdo.
    rewrite (getVideoInfo_decoded url s body videoInfo Hreq Hdo Hdec).
    destruct (Z.eqb_spec (Code videoInfo) 0); [contradiction | reflexivity]. }
  split; [exact Hinfo |].
  intros r s s1 Hpick Hreq Hdo.
  unfold serve, response. rewrite getVideoData_steps, Hpick.
  unfold bind at 1. cbn [Println].
  rewrite Hinfo by assumption.
  destruct (getRandomURL_frame (with_w s Http.fresh)) as (x & n & E).
  rewrite Hpick in E. injection E as _ ->.
  reflexivity.
Qed.

Lemma getVideoInfo_remote_error_witness :
  let s := Fixture.boot (Fixture.calm Fixture.remote_refusal) Fixture.three_rows in
  getVideoInfo "https://vt.tiktok.com/ZS2/" s
  = Return (None, Some "API error: Url parsing is failed! Please check url.")
           (with_sent (with_clock s 1) [api_request "https://vt.tiktok.com/ZS2/"])
  /\ response (serve getVideoData Fixture.get s)
     = mkResponseWriter
         [("Content-Type", ["text/plain; charset=utf-8"]);
          ("X-Content-Type-Options", ["nosniff"])]
         (Some 500)
         [Text ("Error fetching video: API error: Url parsing is failed! Please check url."
                  ++ newline)].
Proof.
  intros s.
  assert (Hcode : Code (mkVideoInfo (-1) "Url parsing is failed! Please check url." zero_Data) <> 0)
    by discriminate.
  destruct (getVideoInfo_remote_error "https://vt.tiktok.com/ZS2/" Fixture.remote_refusal _
              eq_refl Hcode) as [Hinfo Hserve].
  split.
  - exact (Hinfo s eq_refl eq_refl).
  - exact (Hserve Fixture.get s _ eq_refl eq_refl eq_refl).
Defined.

(** ** The method of [/new] (C10) *)


